(** * WarDashboard (src/js/main.js): a shallow embedding and its properties

    The controller class of the dashboard is embedded as follows.

    - JavaScript numbers are IEEE 754 binary64 values: Rocq's primitive
      [float], with the kernel's own arithmetic.
    - JavaScript strings are modelled by [string], holding the UTF-8 encoding
      of the text (the Burmese literals of the source included).
    - Plain objects used as records (a feature's [properties], a row of the
      sheet) are finite maps from field names.
    - The methods that touch [this], the page or the Leaflet map are written
      in a state monad with exceptions over the record [dashboard].

    The functions of the host that the source calls but does not define
    ([Date.parse], the numeric reading of a string, the decimal printing of a
    number that is not a small integer) are variables of a section. *)

From Stdlib Require Import ZArith Floats Ascii String DecimalString.
From stdpp Require Import base option list gmap strings.

Local Open Scope string_scope.
Local Open Scope Z_scope.

(** ** Numbers *)

Module Number.

(** 𝔽(z) for a non-negative mathematical integer: the nearest binary64
    value, ties to even. Up to 62 bits the primitive conversion rounds;
    beyond, the low bits are folded into a sticky bit first and the
    exponent is put back with [ldexp], which overflows to [infinity]. *)
Definition of_nonneg (z : Z) : float :=
  let n := Z.log2 z + 1 in
  if n <=? 62 then PrimFloat.of_uint63 (Uint63.of_Z z)
  else
    let k := n - 62 in
    let hi := Z.shiftr z k in
    let sticky := if Z.land z (Z.ones k) =? 0 then 0 else 1 in
    Z.ldexp (PrimFloat.of_uint63 (Uint63.of_Z (Z.lor hi sticky))) k.

Definition of_Z (z : Z) : float :=
  if z <? 0 then PrimFloat.opp (of_nonneg (- z)) else of_nonneg z.

(** The mathematical value of a number that is an integer. *)
Definition to_integer (x : float) : option Z :=
  match Prim2SF x with
  | S754_zero _ => Some 0
  | S754_finite s m e =>
      let sgn := if s then -1 else 1 in
      if 0 <=? e then Some (sgn * (Z.pos m * 2 ^ e))
      else if Z.pos m mod 2 ^ (- e) =? 0 then Some (sgn * (Z.pos m / 2 ^ (- e)))
      else None
  | _ => None
  end.

(** truncate(x) of a finite number, as a mathematical integer. *)
Definition truncate (x : float) : option Z :=
  match Prim2SF x with
  | S754_zero _ => Some 0
  | S754_finite s m e =>
      let sgn := if s then -1 else 1 in
      Some (sgn * (if 0 <=? e then Z.pos m * 2 ^ e else Z.pos m / 2 ^ (- e)))
  | _ => None
  end.

(** ToBoolean on a number: false for NaN, +0 and -0. *)
Definition truthy (x : float) : bool :=
  negb (PrimFloat.is_nan x || PrimFloat.is_zero x).

(** [Math.max] of two arguments: NaN is contagious and +0 is above -0. *)
Definition max2 (a b : float) : float :=
  if PrimFloat.is_nan a || PrimFloat.is_nan b then PrimFloat.nan
  else if PrimFloat.ltb a b then b
  else if PrimFloat.ltb b a then a
  else if PrimFloat.is_zero a && PrimFloat.is_zero b
       then (if PrimFloat.get_sign a then b else a)
  else a.

(** [Math.max(...xs)]: the fold starts from -∞, the value of [Math.max()]. *)
Definition max (xs : list float) : float :=
  fold_left max2 xs PrimFloat.neg_infinity.

(** Number::toString for the numbers whose printing is plain: NaN, the
    infinities, the zeros and the integers of magnitude at most 2^53,
    printed as their decimal expansion. [None] for the others. *)
Definition to_string_plain (x : float) : option string :=
  if PrimFloat.is_nan x then Some "NaN"
  else if PrimFloat.is_infinity x
       then Some (if PrimFloat.get_sign x then "-Infinity" else "Infinity")
  else match to_integer x with
       | Some z => if Z.abs z <=? 2 ^ 53
                   then Some (NilZero.string_of_int (Z.to_int z)) else None
       | None => None
       end.

End Number.

(** ** parseInt *)

Module ParseInt.

Definition code (c : ascii) : Z := Z.of_N (N_of_ascii c).

(** One-byte members of StrWhiteSpaceChar: TAB, LF, VT, FF, CR, SP. *)
Definition ws1 (c : ascii) : bool :=
  let n := code c in ((9 <=? n) && (n <=? 13)) || (n =? 32).

(** Two-byte member: U+00A0. *)
Definition ws2 (a b : ascii) : bool :=
  (code a =? 194) && (code b =? 160).

(** Three-byte members: U+1680, U+2000..U+200A, U+2028, U+2029, U+202F,
    U+205F, U+3000 and U+FEFF. *)
Definition ws3 (a b c : ascii) : bool :=
  let '(x, y, z) := (code a, code b, code c) in
  ((x =? 225) && (y =? 154) && (z =? 128))
  || ((x =? 226) && (y =? 128)
      && (((128 <=? z) && (z <=? 138)) || (z =? 168) || (z =? 169) || (z =? 175)))
  || ((x =? 226) && (y =? 129) && (z =? 159))
  || ((x =? 227) && (y =? 128) && (z =? 128))
  || ((x =? 239) && (y =? 187) && (z =? 191)).

(** TrimString(inputString, start). *)
Fixpoint trim_start (s : string) : string :=
  match s with
  | String a r1 =>
      if ws1 a then trim_start r1
      else match r1 with
           | String b r2 =>
               if ws2 a b then trim_start r2
               else match r2 with
                    | String c r3 => if ws3 a b c then trim_start r3 else s
                    | EmptyString => s
                    end
           | EmptyString => s
           end
  | EmptyString => s
  end.

(** The value of a character as a digit of radix [R], if it is one. *)
Definition digit (R : Z) (c : ascii) : option Z :=
  let n := code c in
  let v := if (48 <=? n) && (n <=? 57) then Some (n - 48)
           else if (97 <=? n) && (n <=? 122) then Some (n - 87)
           else if (65 <=? n) && (n <=? 90) then Some (n - 55)
           else None in
  match v with
  | Some d => if d <? R then Some d else None
  | None => None
  end.

(** The longest prefix of radix-[R] digits, read as an integer;
    [acc] is [None] while no digit has been read. *)
Fixpoint digits (R : Z) (s : string) (acc : option Z) : option Z :=
  match s with
  | String c r =>
      match digit R c with
      | Some d => digits R r (Some (default 0 acc * R + d))
      | None => acc
      end
  | EmptyString => acc
  end.

(** [parseInt(s)] with no radix argument. *)
Definition parseInt (input : string) : float :=
  let s := trim_start input in
  let '(neg, s) :=
    match s with
    | String "-" r => (true, r)
    | String "+" r => (false, r)
    | _ => (false, s)
    end in
  let '(R, s) :=
    match s with
    | String "0" (String "x" r) => (16, r)
    | String "0" (String "X" r) => (16, r)
    | _ => (10, s)
    end in
  match digits R s None with
  | None => PrimFloat.nan
  | Some 0 => if neg then PrimFloat.neg_zero else PrimFloat.zero
  | Some m => Number.of_Z (if neg then - m else m)
  end.

End ParseInt.

(** ** Values and records *)

(** The values a property can hold: the scalars of JSON, and [undefined].
    Arrays and objects nested in the properties of a boundary are left
    out. *)
Inductive jsval :=
| VUndef
| VNull
| VBool (b : bool)
| VNum (x : float)
| VStr (s : string).

(** A plain object read as a record of values; a field that is absent reads
    as [undefined]. *)
Abbreviation obj := (gmap string jsval).

Definition get (o : obj) (k : string) : jsval := default VUndef (o !! k).

(** A cell of the sheet: a string, or [undefined] where the row is shorter
    than the header row. *)
Abbreviation cell := (option string).

(** A record of the sheet, as [processSheetData] builds it. *)
Abbreviation row := (gmap string cell).

Module Cell.
Definition to_value (c : cell) : jsval :=
  match c with Some s => VStr s | None => VUndef end.
Definition ToString (c : cell) : string :=
  match c with Some s => s | None => "undefined" end.
Definition ToBoolean (c : cell) : bool :=
  match c with Some s => negb (String.eqb s "") | None => false end.
End Cell.

(** [d[k]] and [d.k] at a name that [Object.prototype] does not hold, where
    the read is that of the record's own key; every name at which the source
    reads a record (TS_MMR_DASH, ST_MMR, Groups, Time) is such a name. *)
Definition field (d : row) (k : string) : cell := mjoin (d !! k).

(** ToBoolean. *)
Definition ToBoolean (v : jsval) : bool :=
  match v with
  | VUndef | VNull => false
  | VBool b => b
  | VNum x => Number.truthy x
  | VStr s => negb (String.eqb s "")
  end.

(** [a === b]. *)
Definition strict_eq (a b : jsval) : bool :=
  match a, b with
  | VUndef, VUndef | VNull, VNull => true
  | VBool x, VBool y => Bool.eqb x y
  | VNum x, VNum y => PrimFloat.eqb x y
  | VStr s, VStr t => String.eqb s t
  | _, _ => false
  end.

(** [a || b]. *)
Definition or_else (a b : jsval) : jsval := if ToBoolean a then a else b.

(** [x || y] on numbers. *)
Definition num_or (x y : float) : float := if Number.truthy x then x else y.

(** The sentinel of the three select filters. *)
Definition ALL : string := "အားလုံး".

(** ** The data *)

(** The geometry of a boundary. *)
Inductive geom :=
| Polygon (rings : list (list (float * float)))
| MultiPolygon (polygons : list (list (list (float * float)))).

(** A boundary feature; [properties] is taken to be an object, never
    [null]. *)
Record feature := Feature {
  geometry : geom;
  properties : obj
}.

Record geojson := { features : list feature }.

(** [item[header] = v] on a plain object, for [v] a string or [undefined].
    The name [__proto__] is an accessor of [Object.prototype]: the assignment
    runs its setter, which ignores a value that is no object, and creates no
    key. Every other name becomes, or stays, a key of [item]. *)
Definition assign (header : string) (v : cell) (item : row) : row :=
  if String.eqb header "__proto__" then item else <[header := v]> item.

(** [processSheetData]: [headers.forEach((header, index) => item[header] =
    row[index])], from [index] on. *)
Fixpoint set_headers (headers : list string) (index : nat)
    (r : list string) (item : row) : row :=
  match headers with
  | [] => item
  | header :: rest => set_headers rest (S index) r (assign header (r !! index) item)
  end.

(** With no row at all [rows[0]] is [undefined] and [rows.slice(1)] is
    empty, so the headers are never read. *)
Definition processSheetData (rows : list (list string)) : list row :=
  let headers := default [] (head rows) in
  (λ r, set_headers headers 0 r ∅) <$> tail rows.

(** [{...sheetEntry}] for the result of [find]: nothing when it is
    [undefined]. *)
Definition spread (sheetEntry : option row) : obj :=
  from_option (fmap Cell.to_value) ∅ sheetEntry.

(** The body of the arrow function of [mergeData]. *)
Definition merge_feature (sheetData : list row) (ft : feature) : feature :=
  let township := get (properties ft) "TS_MMR" in
  let sheetEntry :=
    List.find (λ d, strict_eq (Cell.to_value (field d "TS_MMR_DASH")) township)
      sheetData in
  {| geometry := geometry ft;
     properties :=
       <["totalTime" :=
           VNum match sheetEntry with
                | Some e =>
                    num_or (ParseInt.parseInt (Cell.ToString (field e "Time"))) 0
                | None => 0%float
                end]>
         (spread sheetEntry ∪ properties ft) |}.

(** [mergeData], with [this.sheetData] and [this.geoData] as arguments. *)
Definition mergeData (sheetData : list row) (geoData : geojson) : list feature :=
  merge_feature sheetData <$> features geoData.

(** ** The filters *)

(** A bound of the date range is [null] or [undefined] ([None]) or a [Date]
    with its time value, NaN for an invalid date. *)
Record filter_state := Filters {
  startDate : option float;
  endDate : option float;
  state : string;
  township : string;
  group : string
}.

(** The filters the constructor sets. *)
Definition initial_filters : filter_state :=
  {| startDate := None; endDate := None;
     state := ALL; township := ALL; group := ALL |}.

(** [[...new Set(xs)]]: the distinct members, each at its first place. *)
Definition Set_add {A} `{EqDecision A} (seen : list A) (x : A) : list A :=
  if decide (x ∈ seen) then seen else seen ++ [x].

Definition distinct {A} `{EqDecision A} (xs : list A) : list A :=
  fold_left Set_add xs [].

(** The double quote and the line feed, as one-character strings. *)
Definition dquote : string := String (ascii_of_nat 34) "".
Definition newline : string := String (ascii_of_nat 10) "".

(** ** What the controller renders *)

(** The style object that [getStyle] returns. *)
Record style := {
  fillColor : string;
  weight : Z;
  opacity : Z;
  color : string;
  fillOpacity : float
}.

(** The holes of the popup template of [addPopup]. *)
Record popup := {
  popup_headline : string;
  popup_state : string;
  popup_township : string;
  popup_total : string;
  popup_link : option string
}.

(** The accumulator of the [reduce] of [updateSummaryCards]. *)
Record totals := {
  sacrificeSac : float;
  revolutionMartyrs : float;
  capturedBases : float;
  prisonersWar : float
}.

(** ** The page, the map and the controller's state *)

(** An [<option>] element. *)
Record option_el := { value : string; textContent : string }.

(** [document.createElement('option')] with both fields set to [v]. *)
Definition make_option (v : string) : option_el :=
  {| value := v; textContent := v |}.

(** The elements of the host page that the controller addresses by
    identifier; the page is taken to contain them. [headlines] is the markup
    last assigned to the [innerHTML] of the headline list, as text: the
    elements that the browser parses out of it are not modelled. *)
Record page := {
  state_filter : list option_el;
  township_filter : list option_el;
  group_filter : list option_el;
  change_listeners : list string;
  date_range : bool;
  sacrifice_sac : string;
  revolution_martyrs : string;
  captured_bases : string;
  prisoners_war : string;
  headlines : string
}.

(** A GeoJSON layer: each feature with its style and its popup. *)
Abbreviation layer := (list (feature * style * popup)).

(** The Leaflet map. The only layer ever added to it is
    [this.currentLayer], so [shown] is that same layer or nothing. *)
Record leaflet := {
  tiles : bool;
  legend : bool;
  shown : option layer
}.

Inductive error :=
| TypeError (what : string)
| Rejected (reason : string).

Record dashboard := {
  the_map : option leaflet;
  geoData : option geojson;
  sheetData : list row;
  mergedData : option (list feature);
  currentLayer : option layer;
  filters : filter_state;
  document : page;
  console : list error
}.

Definition constructor (host_page : page) : dashboard :=
  {| the_map := None; geoData := None; sheetData := [];
     mergedData := None; currentLayer := None;
     filters := initial_filters;
     document := host_page; console := [] |}.

(** *** Field updates *)

Definition set_the_map (m : option leaflet) (d : dashboard) : dashboard :=
  {| the_map := m; geoData := geoData d; sheetData := sheetData d;
     mergedData := mergedData d; currentLayer := currentLayer d;
     filters := filters d; document := document d; console := console d |}.

Definition set_loaded (sheet : list row) (geo : geojson) (merged : list feature)
    (d : dashboard) : dashboard :=
  {| the_map := the_map d; geoData := Some geo; sheetData := sheet;
     mergedData := Some merged; currentLayer := currentLayer d;
     filters := filters d; document := document d; console := console d |}.

Definition set_currentLayer (l : option layer) (d : dashboard) : dashboard :=
  {| the_map := the_map d; geoData := geoData d; sheetData := sheetData d;
     mergedData := mergedData d; currentLayer := l;
     filters := filters d; document := document d; console := console d |}.

Definition set_filters (f : filter_state) (d : dashboard) : dashboard :=
  {| the_map := the_map d; geoData := geoData d; sheetData := sheetData d;
     mergedData := mergedData d; currentLayer := currentLayer d;
     filters := f; document := document d; console := console d |}.

Definition set_document (p : page) (d : dashboard) : dashboard :=
  {| the_map := the_map d; geoData := geoData d; sheetData := sheetData d;
     mergedData := mergedData d; currentLayer := currentLayer d;
     filters := filters d; document := p; console := console d |}.

Definition set_console (c : list error) (d : dashboard) : dashboard :=
  {| the_map := the_map d; geoData := geoData d; sheetData := sheetData d;
     mergedData := mergedData d; currentLayer := currentLayer d;
     filters := filters d; document := document d; console := c |}.

Definition set_dates (start stop : option float) (f : filter_state) : filter_state :=
  {| startDate := start; endDate := stop;
     state := state f; township := township f; group := group f |}.

Definition set_state (v : string) (f : filter_state) : filter_state :=
  {| startDate := startDate f; endDate := endDate f;
     state := v; township := township f; group := group f |}.

Definition set_township (v : string) (f : filter_state) : filter_state :=
  {| startDate := startDate f; endDate := endDate f;
     state := state f; township := v; group := group f |}.

Definition set_group (v : string) (f : filter_state) : filter_state :=
  {| startDate := startDate f; endDate := endDate f;
     state := state f; township := township f; group := v |}.

Definition set_select (elementId : string) (os : list option_el) (p : page) : page :=
  {| state_filter := if String.eqb elementId "state-filter" then os else state_filter p;
     township_filter :=
       if String.eqb elementId "township-filter" then os else township_filter p;
     group_filter := if String.eqb elementId "group-filter" then os else group_filter p;
     change_listeners := change_listeners p; date_range := date_range p;
     sacrifice_sac := sacrifice_sac p; revolution_martyrs := revolution_martyrs p;
     captured_bases := captured_bases p; prisoners_war := prisoners_war p;
     headlines := headlines p |}.

Definition add_listener (elementId : string) (p : page) : page :=
  {| state_filter := state_filter p; township_filter := township_filter p;
     group_filter := group_filter p;
     change_listeners := change_listeners p ++ [elementId];
     date_range := date_range p;
     sacrifice_sac := sacrifice_sac p; revolution_martyrs := revolution_martyrs p;
     captured_bases := captured_bases p; prisoners_war := prisoners_war p;
     headlines := headlines p |}.

Definition set_date_range (p : page) : page :=
  {| state_filter := state_filter p; township_filter := township_filter p;
     group_filter := group_filter p;
     change_listeners := change_listeners p; date_range := true;
     sacrifice_sac := sacrifice_sac p; revolution_martyrs := revolution_martyrs p;
     captured_bases := captured_bases p; prisoners_war := prisoners_war p;
     headlines := headlines p |}.

Definition set_counters (a b c e : string) (p : page) : page :=
  {| state_filter := state_filter p; township_filter := township_filter p;
     group_filter := group_filter p;
     change_listeners := change_listeners p; date_range := date_range p;
     sacrifice_sac := a; revolution_martyrs := b;
     captured_bases := c; prisoners_war := e;
     headlines := headlines p |}.

Definition set_headlines (hs : string) (p : page) : page :=
  {| state_filter := state_filter p; township_filter := township_filter p;
     group_filter := group_filter p;
     change_listeners := change_listeners p; date_range := date_range p;
     sacrifice_sac := sacrifice_sac p; revolution_martyrs := revolution_martyrs p;
     captured_bases := captured_bases p; prisoners_war := prisoners_war p;
     headlines := hs |}.

(** [document.getElementById(elementId)] for a [<select>]: its options, or
    [None] for [null]. *)
Definition select_of (elementId : string) (p : page) : option (list option_el) :=
  if String.eqb elementId "state-filter" then Some (state_filter p)
  else if String.eqb elementId "township-filter" then Some (township_filter p)
  else if String.eqb elementId "group-filter" then Some (group_filter p)
  else None.

(** *** The monad of the methods: state, and exceptions that keep the
    state reached when they are thrown. *)

Inductive result (A : Type) :=
| Ok (a : A)
| Throw (e : error).
Arguments Ok {A} a.
Arguments Throw {A} e.

Definition M (A : Type) : Type := dashboard → result A * dashboard.

Definition ret {A} (a : A) : M A := λ d, (Ok a, d).

Definition bind {A B} (m : M A) (k : A → M B) : M B :=
  λ d, match m d with
       | (Ok a, d') => k a d'
       | (Throw e, d') => (Throw e, d')
       end.

Definition throw {A} (e : error) : M A := λ d, (Throw e, d).

Definition this : M dashboard := λ d, (Ok d, d).

Definition update (f : dashboard → dashboard) : M unit := λ d, (Ok tt, f d).

(** [try { m } catch (error) { handler(error) }]. *)
Definition try_catch {A} (m : M A) (handler : error → M A) : M A :=
  λ d, match m d with
       | (Ok a, d') => (Ok a, d')
       | (Throw e, d') => handler e d'
       end.

Declare Scope dash_scope.
Delimit Scope dash_scope with dash.
Notation "x ← y ; z" := (bind y (λ x, z))
  (at level 20, y at level 100, z at level 200, only parsing) : dash_scope.
Notation "x ;; z" := (bind x (λ _, z))
  (at level 100, z at level 200, only parsing, right associativity) : dash_scope.
Local Open Scope dash_scope.

(** ** The methods that do not render *)

(** [console.error('Data loading error:', error)]. *)
Definition console_error (e : error) : M unit :=
  update (λ d, set_console (console d ++ [e]) d).

(** What the two requests of [loadData] come back with: the [values] of the
    sheet's response ([None] when the response has none), the parsed boundary
    file, and, for the case that both fail, which of them fails first. *)
Record network := {
  sheet_values : result (option (list (list string)));
  boundary_file : result geojson;
  boundary_settles_first : bool
}.

(** [fetchGoogleSheet]: a failed request rejects, and so does
    [processSheetData(undefined)], at [rows[0]]. *)
Definition fetchGoogleSheet (net : network) : result (list row) :=
  match sheet_values net with
  | Ok (Some rows) => Ok (processSheetData rows)
  | Ok None => Throw (TypeError "rows is undefined")
  | Throw e => Throw e
  end.

(** [await Promise.all([a, b])]: both values, or the first rejection. *)
Definition Promise_all {A B} (b_first : bool) (a : result A) (b : result B)
    : result (A * B) :=
  match a, b with
  | Ok x, Ok y => Ok (x, y)
  | Throw e, Ok _ => Throw e
  | Ok _, Throw e => Throw e
  | Throw ea, Throw eb => Throw (if b_first then eb else ea)
  end.

Definition loadData (net : network) : M unit :=
  try_catch
    match Promise_all (boundary_settles_first net)
            (fetchGoogleSheet net) (boundary_file net) with
    | Ok (sheetResponse, geoResponse) =>
        update (set_loaded sheetResponse geoResponse
                  (mergeData sheetResponse geoResponse))
    | Throw e => throw e
    end
    (λ error, console_error error).

(** [this.map.f(...)]: a TypeError while [this.map] is [null]. *)
Definition with_map (f : leaflet → leaflet) : M unit :=
  d ← this;
  match the_map d with
  | Some m => update (set_the_map (Some (f m)))
  | None => throw (TypeError "this.map is null")
  end.

Definition addLegend : M unit :=
  with_map (λ m, {| tiles := tiles m; legend := true; shown := shown m |}).

Definition initMap : M unit :=
  update (set_the_map (Some {| tiles := false; legend := false; shown := None |}));;
  with_map (λ m, {| tiles := true; legend := legend m; shown := shown m |});;
  addLegend.

Definition initSelectFilter (elementId property : string) : M unit :=
  d ← this;
  match select_of elementId (document d) with
  | None => throw (TypeError "select is null")
  | Some options =>
      let values :=
        List.filter Cell.ToBoolean
          (distinct ((λ r, field r property) <$> sheetData d)) in
      update (λ d, set_document
                     (set_select elementId
                        (options ++ [make_option ALL]
                         ++ ((λ v, make_option (Cell.ToString v)) <$> values))
                        (document d)) d);;
      if String.eqb elementId "state-filter"
      then update (λ d, set_document (add_listener elementId (document d)) d)
      else if String.eqb elementId "township-filter"
      then update (λ d, set_document (add_listener elementId (document d)) d)
      else ret tt
  end.

Definition updateTownshipFilter : M unit :=
  d ← this;
  let townships :=
    List.filter Cell.ToBoolean
      ((λ r, field r "TS_MMR_DASH")
         <$> List.filter
               (λ r, String.eqb (state (filters d)) ALL
                     || strict_eq (Cell.to_value (field r "ST_MMR"))
                          (VStr (state (filters d))))
               (sheetData d)) in
  update (λ d, set_document
                 (set_select "township-filter"
                    (make_option ALL
                     :: ((λ v, make_option (Cell.ToString v)) <$> distinct townships))
                    (document d)) d);;
  update (λ d, set_filters (set_township ALL (filters d)) d).

Definition updateGroupFilter : M unit :=
  d ← this;
  let filteredData :=
    List.filter
      (λ r,
         let stateMatch :=
           String.eqb (state (filters d)) ALL
           || strict_eq (Cell.to_value (field r "ST_MMR")) (VStr (state (filters d))) in
         let townshipMatch :=
           String.eqb (township (filters d)) ALL
           || strict_eq (Cell.to_value (field r "TS_MMR_DASH"))
                (VStr (township (filters d))) in
         stateMatch && townshipMatch)
      (sheetData d) in
  let groups := List.filter Cell.ToBoolean ((λ r, field r "Groups") <$> filteredData) in
  update (λ d, set_document
                 (set_select "group-filter"
                    (make_option ALL
                     :: ((λ v, make_option (Cell.ToString v)) <$> distinct groups))
                    (document d)) d);;
  update (λ d, set_filters (set_group ALL (filters d)) d).

Definition initDatePicker : M unit :=
  update (λ d, set_document (set_date_range (document d)) d).

(** ** The pure part of the controller *)

Section Host.

(** [Date.parse]: the time value of a date string, NaN when it is not
    recognised. Which formats are recognised is left to the host. *)
Variable DateParse : string → float.

(** StringToNumber, the numeric reading of a string. *)
Variable StringToNumber : string → float.

(** Number::toString on the numbers that [Number.to_string_plain] leaves
    out (fractions and large magnitudes). *)
Variable NumberToString_other : float → string.

Definition NumberToString (x : float) : string :=
  default (NumberToString_other x) (Number.to_string_plain x).

Definition ToString (v : jsval) : string :=
  match v with
  | VUndef => "undefined"
  | VNull => "null"
  | VBool b => if b then "true" else "false"
  | VNum x => NumberToString x
  | VStr s => s
  end.

Definition ToNumber (v : jsval) : float :=
  match v with
  | VUndef => PrimFloat.nan
  | VNull => 0%float
  | VBool b => if b then 1%float else 0%float
  | VNum x => x
  | VStr s => StringToNumber s
  end.

(** [parseInt(v)]: the argument is converted to a string first. *)
Definition parseInt (v : jsval) : float := ParseInt.parseInt (ToString v).

(** TimeClip: NaN outside ±8.64e15 ms, else the integer part, never -0. *)
Definition TimeClip (x : float) : float :=
  if PrimFloat.ltb 8.64e15%float (PrimFloat.abs x) then PrimFloat.nan
  else match Number.truncate x with
       | Some z => Number.of_Z z
       | None => PrimFloat.nan
       end.

(** The time value of [new Date(v)]. *)
Definition new_Date (v : jsval) : float :=
  match v with
  | VStr s => DateParse s
  | _ => TimeClip (ToNumber v)
  end.

(** The callback of [applyFilters]. [date >= startDate] compares the two
    time values and is false when either is NaN. *)
Definition keep (filters : filter_state) (ft : feature) : bool :=
  let props := properties ft in
  let date := new_Date (get props "Date") in
  let dateMatch :=
    match startDate filters with
    | None => true
    | Some start => PrimFloat.leb start date
    end
    && match endDate filters with
       | None => true
       | Some stop => PrimFloat.leb date stop
       end in
  let stateMatch :=
    String.eqb (state filters) ALL
    || strict_eq (get props "ST_MMR") (VStr (state filters)) in
  let townshipMatch :=
    String.eqb (township filters) ALL
    || strict_eq (get props "TS_MMR_DASH") (VStr (township filters)) in
  let groupMatch :=
    String.eqb (group filters) ALL
    || strict_eq (get props "Groups") (VStr (group filters)) in
  dateMatch && stateMatch && townshipMatch && groupMatch.

(** [applyFilters], with [this.filters] and [this.mergedData] as
    arguments. *)
Definition applyFilters (filters : filter_state) (mergedData : list feature)
    : list feature :=
  List.filter (keep filters) mergedData.

(** The lightness that [getStyle] puts in the colour. *)
Definition lightness (value maxTime : float) : float :=
  let intensity := (value / maxTime)%float in
  (100 - intensity * 50)%float.

Definition getStyle (ft : feature) (maxTime : float) : style :=
  let value := ToNumber (get (properties ft) "totalTime") in
  {| fillColor := "hsl(0, 100%, " ++ NumberToString (lightness value maxTime) ++ "%)";
     weight := 1;
     opacity := 1;
     color := "white";
     fillOpacity := 0x1.6666666666666p-1%float (* 0.7 *) |}.

Definition addPopup (ft : feature) : popup :=
  let props := properties ft in
  {| popup_headline := ToString (or_else (get props "Headline") (VStr "အချက်အလက်မရှိပါ"));
     popup_state := ToString (get props "ST_MMR");
     popup_township := ToString (get props "TS_MMR_DASH");
     popup_total := ToString (get props "totalTime");
     popup_link := if ToBoolean (get props "Link")
                   then Some (ToString (get props "Link")) else None |}.

(** [Math.max(...filteredData.map(d => d.properties.totalTime))]. *)
Definition maxTime_of (filteredData : list feature) : float :=
  Number.max ((λ d, ToNumber (get (properties d) "totalTime")) <$> filteredData).

(** [parseInt(feature.properties[k] || 0)]. *)
Definition count (ft : feature) (k : string) : float :=
  parseInt (or_else (get (properties ft) k) (VNum 0)).

Definition add_feature (acc : totals) (ft : feature) : totals :=
  {| sacrificeSac := (sacrificeSac acc + count ft "စကစကျဆုံး")%float;
     revolutionMartyrs := (revolutionMartyrs acc + count ft "တော်လှန်ရေးကျဆုံး")%float;
     capturedBases := (capturedBases acc + count ft "စခန်းသိမ်း(တော်လှန်ရေး)"
                       + count ft "စခန်းသိမ်း(စကစ)")%float;
     prisonersWar := (prisonersWar acc + count ft "စစ်သုံပန်း")%float |}.

Definition summaryTotals (data : list feature) : totals :=
  fold_left add_feature data
    {| sacrificeSac := 0; revolutionMartyrs := 0;
       capturedBases := 0; prisonersWar := 0 |}.

(** The two holes of the template of [updateHeadlines]. *)
Definition headline (ft : feature) : string * string :=
  (ToString (or_else (get (properties ft) "Type1") (VStr "")),
   ToString (or_else (get (properties ft) "Headline") (VStr ""))).

(** ** The methods that render *)

Definition updateSummaryCards (data : list feature) : M unit :=
  let totals := summaryTotals data in
  update (λ d, set_document
                 (set_counters
                    (NumberToString (sacrificeSac totals))
                    (NumberToString (revolutionMartyrs totals))
                    (NumberToString (capturedBases totals))
                    (NumberToString (prisonersWar totals))
                    (document d)) d).

(** The template literal of [updateHeadlines] for one feature, with its
    line breaks and indentation; the two texts are inserted as they are. *)
Definition headline_html (ft : feature) : string :=
  newline ++ "            <div class=" ++ dquote ++ "mb-2 p-2 border-bottom" ++ dquote
  ++ ">" ++ newline
  ++ "                <div class=" ++ dquote ++ "fw-bold" ++ dquote ++ ">"
  ++ (headline ft).1 ++ "</div>" ++ newline
  ++ "                <div class=" ++ dquote ++ "text-muted" ++ dquote ++ ">"
  ++ (headline ft).2 ++ "</div>" ++ newline
  ++ "            </div>" ++ newline
  ++ "        ".

(** [data.map(...).join('')], assigned to [innerHTML]. *)
Definition updateHeadlines (data : list feature) : M unit :=
  update (λ d, set_document
                 (set_headlines (String.concat "" (headline_html <$> data))
                    (document d)) d).

(** [L.geoJson(filteredData, {style, onEachFeature})]. *)
Definition L_geoJson (filteredData : list feature) (maxTime : float) : layer :=
  (λ ft, (ft, getStyle ft maxTime, addPopup ft)) <$> filteredData.

(** [this.mergedData.filter(...)] is a TypeError while [this.mergedData] is
    [undefined]. *)
Definition updateChoropleth : M unit :=
  d ← this;
  match currentLayer d with
  | Some _ => with_map (λ m, {| tiles := tiles m; legend := legend m; shown := None |})
  | None => ret tt
  end;;
  filteredData ←
    match mergedData d with
    | Some merged => ret (applyFilters (filters d) merged)
    | None => throw (TypeError "this.mergedData is undefined")
    end;
  let maxTime := maxTime_of filteredData in
  let new_layer := L_geoJson filteredData maxTime in
  with_map (λ m, {| tiles := tiles m; legend := legend m; shown := Some new_layer |});;
  update (set_currentLayer (Some new_layer));;
  updateSummaryCards filteredData;;
  updateHeadlines filteredData.

Definition updateDashboard : M unit := updateChoropleth.

(** The [onChange] callback of the date picker: [dates] holds the time
    values of the selected dates, none, one or two. *)
Definition on_dates_change (dates : list float) : M unit :=
  update (λ d, set_filters (set_dates (dates !! 0%nat) (dates !! 1%nat) (filters d)) d);;
  updateDashboard.

(** The [change] listener of the state select. *)
Definition on_state_change (v : string) : M unit :=
  update (λ d, set_filters (set_state v (filters d)) d);;
  updateTownshipFilter;;
  updateGroupFilter;;
  updateDashboard.

(** The [change] listener of the township select. *)
Definition on_township_change (v : string) : M unit :=
  update (λ d, set_filters (set_township v (filters d)) d);;
  updateGroupFilter;;
  updateDashboard.

(** The [change] listener of the group select. *)
Definition on_group_change (v : string) : M unit :=
  update (λ d, set_filters (set_group v (filters d)) d);;
  updateDashboard.

Definition initGroupFilter : M unit :=
  update (λ d, set_document (add_listener "group-filter" (document d)) d);;
  updateGroupFilter.

Definition initFilters : M unit :=
  initSelectFilter "state-filter" "ST_MMR";;
  initSelectFilter "township-filter" "TS_MMR_DASH";;
  initGroupFilter.

Definition init (net : network) : M unit :=
  loadData net;;
  initMap;;
  initFilters;;
  initDatePicker;;
  updateDashboard.

(** [new WarDashboard()] on a page, once [init] has settled. *)
Definition WarDashboard (host_page : page) (net : network) : result unit * dashboard :=
  init net (constructor host_page).

(** ** The vocabulary of the properties *)

(** A select filter lets a value through when it holds the sentinel or the
    value is that very string. *)
Definition select_passes (chosen : string) (v : jsval) : Prop :=
  chosen = ALL ∨ v = VStr chosen.

(** A time value lies in the date range: not before the start and not after
    the end, for each bound that is set. *)
Definition in_date_range (f : filter_state) (t : float) : Prop :=
  (∀ start, startDate f = Some start → PrimFloat.leb start t = true)
  ∧ (∀ stop, endDate f = Some stop → PrimFloat.leb t stop = true).

Definition passes (f : filter_state) (ft : feature) : Prop :=
  in_date_range f (new_Date (get (properties ft) "Date"))
  ∧ select_passes (state f) (get (properties ft) "ST_MMR")
  ∧ select_passes (township f) (get (properties ft) "TS_MMR_DASH")
  ∧ select_passes (group f) (get (properties ft) "Groups").



(** The names that [Object.prototype] holds: a read of a plain object at one
    of them finds the inherited member when the object has no such key. *)
Definition Object_prototype_names : list string :=
  ["constructor"; "__proto__"; "hasOwnProperty"; "isPrototypeOf";
   "propertyIsEnumerable"; "toLocaleString"; "toString"; "valueOf";
   "__defineGetter__"; "__defineSetter__"; "__lookupGetter__"; "__lookupSetter__"].







(** The five count fields that [updateSummaryCards] reads. *)
Definition count_fields : list string :=
  ["စကစကျဆုံး"; "တော်လှန်ရေးကျဆုံး"; "စခန်းသိမ်း(တော်လှန်ရေး)"; "စခန်းသိမ်း(စကစ)";
   "စစ်သုံပန်း"].

(** ** Fixtures *)

(** A boundary feature that carries only its township name. *)
Definition town (name : string) : feature :=
  {| geometry := Polygon []; properties := {[ "TS_MMR" := VStr name ]} |}.

(** Two boundaries, and one record for the first of them. *)
Definition scenario_rows : list row :=
  [ {[ "TS_MMR_DASH" := Some "town1"; "Time" := Some "5"; "ST_MMR" := Some "S1" ]} ].

Definition scenario_boundaries : geojson :=
  {| features := [town "town1"; town "town2"] |}.

(** A boundary that no record of the scenario names and that carries a
    state of its own. *)
Definition shan_boundary : feature :=
  {| geometry := Polygon [];
     properties := {[ "TS_MMR" := VStr "town2"; "ST_MMR" := VStr "Shan" ]} |}.


(** A page whose selects are empty and whose counters are blank. *)
Definition blank_page : page :=
  {| state_filter := []; township_filter := []; group_filter := [];
     change_listeners := []; date_range := false;
     sacrifice_sac := ""; revolution_martyrs := "";
     captured_bases := ""; prisoners_war := ""; headlines := "" |}.

(** The controller once the data is loaded and the map created, before the
    first rendering, with the filters [f]. *)
Definition loaded (sheet : list row) (geo : geojson) (f : filter_state) : dashboard :=
  {| the_map := Some {| tiles := true; legend := true; shown := None |};
     geoData := Some geo; sheetData := sheet;
     mergedData := Some (mergeData sheet geo);
     currentLayer := None; filters := f;
     document := blank_page; console := [] |}.

(** The sheet cannot be reached; the boundary file arrives. *)
Definition sheet_down : network :=
  {| sheet_values := Throw (Rejected "Network Error");
     boundary_file := Ok scenario_boundaries;
     boundary_settles_first := false |}.

(** A host that recognises no date and no numeral, for scenarios that hold
    neither. *)
Definition no_date : string → float := λ _, PrimFloat.nan.
Definition no_numeral : string → float := λ _, PrimFloat.nan.
Definition no_fraction : float → string := λ _, "".

(** The values of the scenario's sheet as the request returns them: the
    header row and one row. *)
Definition scenario_headers : list string := ["TS_MMR_DASH"; "Time"; "ST_MMR"].

Definition scenario_values : list (list string) :=
  [scenario_headers; ["town1"; "5"; "S1"]].

(** Both requests are answered. *)
Definition both_answered : network :=
  {| sheet_values := Ok (Some scenario_values);
     boundary_file := Ok scenario_boundaries;
     boundary_settles_first := false |}.

(** Both requests are answered, and the sheet holds its header row only. *)
Definition header_only : network :=
  {| sheet_values := Ok (Some [scenario_headers]);
     boundary_file := Ok scenario_boundaries;
     boundary_settles_first := false |}.

(** The controller as a failed load and the rest of [init] leave it. *)
Definition unloaded : dashboard :=
  {| the_map := Some {| tiles := true; legend := true; shown := None |};
     geoData := None; sheetData := []; mergedData := None;
     currentLayer := None; filters := initial_filters;
     document := blank_page; console := [Rejected "Network Error"] |}.

(** * Properties *)

(** ** parseInt on samples *)

Example parseInt_5 : ParseInt.parseInt "5" = 5%float.
Proof. reflexivity. Qed.
Example parseInt_prefix : ParseInt.parseInt "  -12abc" = (-12)%float.
Proof. reflexivity. Qed.
Example parseInt_hex : ParseInt.parseInt "0x1F" = 31%float.
Proof. reflexivity. Qed.
Example parseInt_nan : ParseInt.parseInt "abc" = nan.
Proof. reflexivity. Qed.
Example parseInt_empty : ParseInt.parseInt "" = nan.
Proof. reflexivity. Qed.
Example parseInt_round : ParseInt.parseInt "9007199254740993" = 9007199254740992%float.
Proof. reflexivity. Qed.

(** ** Reading values *)

Lemma strict_eq_cell (c : cell) (v : jsval) :
  strict_eq (Cell.to_value c) v = true ↔ Cell.to_value c = v.
Proof.
  destruct c as [s|], v as [| |b|x|t]; simpl; split; try done.
  - intros H. apply String.eqb_eq in H. by subst.
  - intros [= ->]. apply String.eqb_refl.
Qed.

Lemma strict_eq_str (v : jsval) (s : string) :
  strict_eq v (VStr s) = true ↔ v = VStr s.
Proof.
  destruct v as [| |b|x|t]; simpl; split; try done.
  - intros H. apply String.eqb_eq in H. by subst.
  - intros [= ->]. apply String.eqb_refl.
Qed.

Lemma find_first {A} (f : A → bool) (l : list A) (x : A) :
  List.find f l = Some x →
  ∃ j, l !! j = Some x ∧ f x = true
       ∧ ∀ j' y, (j' < j)%nat → l !! j' = Some y → f y = false.
Proof.
  induction l as [|a l IH]; simpl; [done|].
  destruct (f a) eqn:Ha.
  - intros [= ->]. exists 0%nat. repeat split; [done|]. intros; lia.
  - intros H. destruct (IH H) as (j & Hj & Hx & Hlt).
    exists (S j). repeat split; [done..|].
    intros [|j'] y Hlt' Hy; simpl in Hy.
    + by injection Hy as ->.
    + apply (Hlt j'); [lia|done].
Qed.

Lemma find_nothing {A} (f : A → bool) (l : list A) :
  List.find f l = None ↔ ∀ x, x ∈ l → f x = false.
Proof.
  split.
  - intros H x Hx. apply list_elem_of_In in Hx. by apply (find_none f l).
  - induction l as [|a l IH]; simpl; [done|]. intros H.
    rewrite (H a) by apply list_elem_of_here.
    apply IH. intros x Hx. apply H. by apply list_elem_of_further.
Qed.

(** ** The join *)

Lemma mergeData_lookup (sheetData : list row) (geoData : geojson) (i : nat) :
  mergeData sheetData geoData !! i = merge_feature sheetData <$> features geoData !! i.
Proof. apply list_lookup_fmap. Qed.

Lemma merge_feature_unmatched (sheetData : list row) (ft : feature) :
  (∀ d, d ∈ sheetData →
        Cell.to_value (field d "TS_MMR_DASH") ≠ get (properties ft) "TS_MMR") →
  merge_feature sheetData ft
  = {| geometry := geometry ft;
       properties := <["totalTime" := VNum 0]> (properties ft) |}.
Proof.
  intros Hno. unfold merge_feature.
  replace (List.find _ sheetData) with (@None row).
  - simpl. by rewrite (left_id_L ∅ (∪)).
  - symmetry. apply find_nothing. intros d Hd.
    destruct (strict_eq _ _) eqn:E; [|done].
    apply strict_eq_cell in E. by destruct (Hno d Hd).
Qed.

(** The totalTime of a merged feature is a number, never NaN, and +0 when
    it is a zero. *)
Lemma merge_feature_totalTime (sheetData : list row) (ft : feature) :
  ∃ x, get (properties (merge_feature sheetData ft)) "totalTime" = VNum x
       ∧ PrimFloat.is_nan x = false
       ∧ (PrimFloat.is_zero x = true → x = 0%float).
Proof.
  unfold merge_feature, get. simpl. rewrite lookup_insert_eq. simpl.
  destruct (List.find _ sheetData) as [e|].
  2:{ exists 0%float. repeat split; reflexivity. }
  unfold num_or, Number.truthy.
  destruct (PrimFloat.is_nan _) eqn:Hn; simpl.
  { exists 0%float. repeat split; reflexivity. }
  destruct (PrimFloat.is_zero _) eqn:Hz; simpl.
  { exists 0%float. repeat split; reflexivity. }
  eexists. split; [reflexivity|]. split; [exact Hn|].
  intros H. by rewrite H in Hz.
Qed.

(** C1. [mergeData] returns one merged feature per boundary feature, in the
    same order, and a boundary feature whose TS_MMR no record carries as
    TS_MMR_DASH comes back as itself with totalTime = 0: every field it
    does not carry itself reads as [undefined]. *)
Theorem C1_mergeData_outer_join (sheetData : list row) (geoData : geojson) :
  length (mergeData sheetData geoData) = length (features geoData)
  ∧ ∀ i ft,
      features geoData !! i = Some ft →
      (∀ d, d ∈ sheetData →
            Cell.to_value (field d "TS_MMR_DASH") ≠ get (properties ft) "TS_MMR") →
      ∃ merged,
        mergeData sheetData geoData !! i = Some merged
        ∧ geometry merged = geometry ft
        ∧ get (properties merged) "totalTime" = VNum 0
        ∧ (∀ k, k ≠ "totalTime" → properties merged !! k = properties ft !! k)
        ∧ (∀ k, k ≠ "totalTime" → properties ft !! k = None →
                get (properties merged) k = VUndef).
Proof.
  split; [apply length_fmap|].
  intros i ft Hi Hno.
  exists {| geometry := geometry ft;
            properties := <["totalTime" := VNum 0]> (properties ft) |}.
  split.
  { rewrite mergeData_lookup, Hi. simpl. f_equal.
    by apply merge_feature_unmatched. }
  simpl. repeat split.
  - unfold get. by rewrite lookup_insert_eq.
  - intros k Hk. by rewrite lookup_insert_ne.
  - intros k Hk Hnone. unfold get. by rewrite lookup_insert_ne, Hnone.
Qed.

(** C3. The merged feature keeps the geometry; its properties are those of
    the boundary feature overlaid with the fields of the first record, in
    record order, whose TS_MMR_DASH is the feature's TS_MMR; totalTime is
    the [parseInt] of that record's Time, and 0 when there is no such
    record, when the record has no Time, or when the parse gives NaN. *)
Theorem C3_mergeData_first_match (sheetData : list row) (geoData : geojson)
    (i : nat) (ft : feature) :
  features geoData !! i = Some ft →
  ∃ merged,
    mergeData sheetData geoData !! i = Some merged
    ∧ geometry merged = geometry ft
    ∧ (((∀ d, d ∈ sheetData →
              Cell.to_value (field d "TS_MMR_DASH") ≠ get (properties ft) "TS_MMR")
        ∧ properties merged = <["totalTime" := VNum 0]> (properties ft))
       ∨ ∃ j entry,
           sheetData !! j = Some entry
           ∧ Cell.to_value (field entry "TS_MMR_DASH") = get (properties ft) "TS_MMR"
           ∧ (∀ j' d, (j' < j)%nat → sheetData !! j' = Some d →
                Cell.to_value (field d "TS_MMR_DASH") ≠ get (properties ft) "TS_MMR")
           ∧ (∀ k, k ≠ "totalTime" →
                get (properties merged) k
                = match entry !! k with
                  | Some c => Cell.to_value c
                  | None => get (properties ft) k
                  end)
           ∧ let time := ParseInt.parseInt (Cell.ToString (field entry "Time")) in
             (field entry "Time" = None → time = PrimFloat.nan)
             ∧ (PrimFloat.is_nan time = true →
                  get (properties merged) "totalTime" = VNum 0)
             ∧ (PrimFloat.is_nan time = false → PrimFloat.is_zero time = true →
                  get (properties merged) "totalTime" = VNum 0)
             ∧ (PrimFloat.is_nan time = false → PrimFloat.is_zero time = false →
                  get (properties merged) "totalTime" = VNum time)).
Proof.
  intros Hi. exists (merge_feature sheetData ft).
  rewrite mergeData_lookup, Hi. split; [done|]. split; [done|].
  destruct (List.find
              (λ d, strict_eq (Cell.to_value (field d "TS_MMR_DASH"))
                      (get (properties ft) "TS_MMR")) sheetData)
    as [entry|] eqn:Hfind.
  - right. destruct (find_first _ _ _ Hfind) as (j & Hj & Hm & Hlt).
    exists j, entry. split; [done|]. split; [by apply strict_eq_cell|].
    split.
    { intros j' d Hlt' Hd E. apply strict_eq_cell in E.
      by rewrite (Hlt j' d Hlt' Hd) in E. }
    unfold merge_feature. rewrite Hfind. simpl. split.
    { intros k Hk. unfold get at 1.
      rewrite lookup_insert_ne by done.
      rewrite lookup_union, lookup_fmap. unfold get.
      by destruct (entry !! k), (properties ft !! k). }
    unfold get. rewrite lookup_insert_eq. simpl. unfold num_or, Number.truthy.
    repeat split.
    + by intros ->.
    + by intros ->.
    + by intros -> ->.
    + by intros -> ->.
  - left. pose proof (proj1 (find_nothing _ _) Hfind) as Hno.
    assert (∀ d, d ∈ sheetData →
              Cell.to_value (field d "TS_MMR_DASH") ≠ get (properties ft) "TS_MMR")
      as Hno'.
    { intros d Hd E. apply strict_eq_cell in E. by rewrite (Hno d Hd) in E. }
    split; [done|]. by rewrite (merge_feature_unmatched _ _ Hno').
Qed.

(** ** The filter *)

Lemma select_passes_spec (chosen : string) (v : jsval) :
  String.eqb chosen ALL || strict_eq v (VStr chosen) = true ↔ select_passes chosen v.
Proof.
  unfold select_passes.
  rewrite orb_true_iff, String.eqb_eq, strict_eq_str. done.
Qed.

Lemma in_date_range_spec (f : filter_state) (t : float) :
  match startDate f with None => true | Some start => PrimFloat.leb start t end
  && match endDate f with None => true | Some stop => PrimFloat.leb t stop end = true
  ↔ in_date_range f t.
Proof.
  unfold in_date_range. rewrite andb_true_iff.
  destruct (startDate f) as [a|], (endDate f) as [b|]; split.
  all: try (intros [H1 H2]; split; intros ? [= <-]; done).
  all: try (intros [H1 H2]; split; try done; try (by apply H1); by apply H2).
Qed.

Lemma keep_spec (f : filter_state) (ft : feature) :
  keep f ft = true ↔ passes f ft.
Proof.
  unfold keep, passes.
  rewrite !andb_true_iff, !select_passes_spec.
  rewrite <- andb_true_iff, in_date_range_spec. tauto.
Qed.

(** C2. [applyFilters] walks the merged set and keeps, in order, exactly
    the features that pass the date range and the three select filters; so
    its result is a sublist of the merged set, and the merged set itself when
    no bound is set and the three selects hold the sentinel. *)
Theorem C2_applyFilters_conjunction (f : filter_state) :
  applyFilters f [] = []
  ∧ (∀ ft merged, passes f ft →
       applyFilters f (ft :: merged) = ft :: applyFilters f merged)
  ∧ (∀ ft merged, ¬ passes f ft →
       applyFilters f (ft :: merged) = applyFilters f merged)
  ∧ (∀ merged ft, ft ∈ applyFilters f merged ↔ ft ∈ merged ∧ passes f ft)
  ∧ (∀ merged, sublist (applyFilters f merged) merged)
  ∧ (startDate f = None → endDate f = None →
     state f = ALL → township f = ALL → group f = ALL →
     ∀ merged, applyFilters f merged = merged).
Proof.
  assert (∀ ft merged, passes f ft →
            applyFilters f (ft :: merged) = ft :: applyFilters f merged) as Hyes.
  { intros ft merged H. apply keep_spec in H. unfold applyFilters. simpl.
    by rewrite H. }
  assert (∀ ft merged, ¬ passes f ft →
            applyFilters f (ft :: merged) = applyFilters f merged) as Hno.
  { intros ft merged H. unfold applyFilters. simpl.
    destruct (keep f ft) eqn:E; [|done]. apply keep_spec in E. done. }
  split; [done|]. split; [done|]. split; [done|]. split; [|split].
  - intros merged ft. unfold applyFilters.
    rewrite !list_elem_of_In, filter_In, keep_spec. done.
  - intros merged. induction merged as [|ft merged IH]; [constructor|].
    unfold applyFilters in *. simpl. destruct (keep f ft).
    + by apply sublist_skip.
    + by apply sublist_cons.
  - intros Hs He Hst Hts Hg merged.
    induction merged as [|ft merged IH]; [done|].
    rewrite Hyes, IH; [done|].
    unfold passes, in_date_range, select_passes.
    rewrite Hs, He. repeat split; try done; by left.
Qed.

(** ** The colour *)

(** C4. [getStyle] puts in the fill colour the lightness
    100 - (v / max * 50), computed on binary64 numbers, where v is the
    feature's totalTime: 75 for v = 50, 50 for v = 100 and 100 for v = 0
    when max = 100. *)
Theorem C4_getStyle_lightness (ft : feature) (v maxTime : float) :
  get (properties ft) "totalTime" = VNum v →
  fillColor (getStyle ft maxTime)
  = "hsl(0, 100%, " ++ NumberToString (100 - v / maxTime * 50)%float ++ "%)"
  ∧ lightness v maxTime = (100 - v / maxTime * 50)%float
  ∧ (v = 50%float → maxTime = 100%float →
       lightness v maxTime = 75%float
       ∧ fillColor (getStyle ft maxTime) = "hsl(0, 100%, 75%)")
  ∧ (v = 100%float → maxTime = 100%float →
       lightness v maxTime = 50%float
       ∧ fillColor (getStyle ft maxTime) = "hsl(0, 100%, 50%)")
  ∧ (v = 0%float → maxTime = 100%float →
       lightness v maxTime = 100%float
       ∧ fillColor (getStyle ft maxTime) = "hsl(0, 100%, 100%)").
Proof.
  intros Hv. unfold getStyle. rewrite Hv. simpl.
  split; [done|]. split; [done|].
  repeat split; subst; reflexivity.
Qed.

(** ** The zero maximum *)

Lemma max_zeros (xs : list float) :
  Forall (λ x, x = 0%float) xs → fold_left Number.max2 xs 0%float = 0%float.
Proof.
  induction 1 as [|x xs -> _ IH]; [done|]. simpl.
  change (Number.max2 0 0) with 0%float. done.
Qed.

Lemma maxTime_of_zeros (filteredData : list feature) :
  filteredData ≠ [] →
  (∀ ft, ft ∈ filteredData → get (properties ft) "totalTime" = VNum 0) →
  maxTime_of filteredData = 0%float.
Proof.
  intros Hne Hzero. destruct filteredData as [|ft rest]; [done|].
  unfold maxTime_of, Number.max. simpl.
  rewrite (Hzero ft) by apply list_elem_of_here. simpl.
  change (Number.max2 neg_infinity 0) with 0%float.
  apply max_zeros. apply Forall_fmap, Forall_forall. intros x Hx. simpl.
  by rewrite (Hzero x) by by apply list_elem_of_further.
Qed.

(** ** One rendering *)

(** [updateChoropleth] on a dashboard with its map and its merged set:
    nothing throws, and this is the state it leaves. *)
Lemma updateChoropleth_ok (d : dashboard) (m : leaflet) (merged : list feature) :
  the_map d = Some m →
  mergedData d = Some merged →
  let filteredData := applyFilters (filters d) merged in
  let new_layer := L_geoJson filteredData (maxTime_of filteredData) in
  let totals := summaryTotals filteredData in
  updateChoropleth d
  = (Ok tt,
     {| the_map := Some {| tiles := tiles m; legend := legend m;
                           shown := Some new_layer |};
        geoData := geoData d; sheetData := sheetData d;
        mergedData := Some merged; currentLayer := Some new_layer;
        filters := filters d;
        document :=
          set_headlines (String.concat "" (headline_html <$> filteredData))
            (set_counters
               (NumberToString (sacrificeSac totals))
               (NumberToString (revolutionMartyrs totals))
               (NumberToString (capturedBases totals))
               (NumberToString (prisonersWar totals))
               (document d));
        console := console d |}).
Proof.
  intros Hm Hd. destruct d as [mp geo sheet md cur flt doc con].
  simpl in Hm, Hd. subst mp md.
  unfold updateChoropleth, updateSummaryCards, updateHeadlines, with_map,
    bind, this, update, ret.
  destruct cur; reflexivity.
Qed.

(** C8. With an empty filtered set the rendering returns normally: the
    maximum is -∞, the new layer holds no styled feature, the four counters
    show 0 and the markup of the headline list is empty. *)
Theorem C8_empty_filtered_set (d : dashboard) (m : leaflet) (merged : list feature) :
  the_map d = Some m →
  mergedData d = Some merged →
  applyFilters (filters d) merged = [] →
  maxTime_of (applyFilters (filters d) merged) = neg_infinity
  ∧ (updateChoropleth d).1 = Ok tt
  ∧ let d' := (updateChoropleth d).2 in
    currentLayer d' = Some []
    ∧ (shown <$> the_map d') = Some (Some [])
    ∧ summaryTotals (applyFilters (filters d) merged)
      = {| sacrificeSac := 0; revolutionMartyrs := 0;
           capturedBases := 0; prisonersWar := 0 |}
    ∧ sacrifice_sac (document d') = "0"
    ∧ revolution_martyrs (document d') = "0"
    ∧ captured_bases (document d') = "0"
    ∧ prisoners_war (document d') = "0"
    ∧ headlines (document d') = "".
Proof.
  intros Hm Hd Hempty.
  rewrite (updateChoropleth_ok d m merged Hm Hd), Hempty. simpl.
  repeat split; reflexivity.
Qed.

(** C10. With a filtered set that is not empty and whose features all have
    totalTime 0, the maximum is 0, the intensity 0 / 0 is NaN, and every
    feature of the new layer is styled with the lightness NaN. *)
Theorem C10_zero_maximum_gives_NaN (d : dashboard) (m : leaflet)
    (merged : list feature) :
  the_map d = Some m →
  mergedData d = Some merged →
  applyFilters (filters d) merged ≠ [] →
  (∀ ft, ft ∈ applyFilters (filters d) merged →
         get (properties ft) "totalTime" = VNum 0) →
  maxTime_of (applyFilters (filters d) merged) = 0%float
  ∧ (0 / 0)%float = PrimFloat.nan
  ∧ (updateChoropleth d).1 = Ok tt
  ∧ ∃ new_layer,
      currentLayer (updateChoropleth d).2 = Some new_layer
      ∧ new_layer.*1.*1 = applyFilters (filters d) merged
      ∧ ∀ ft st pop, (ft, st, pop) ∈ new_layer →
          lightness (ToNumber (get (properties ft) "totalTime"))
            (maxTime_of (applyFilters (filters d) merged)) = PrimFloat.nan
          ∧ fillColor st = "hsl(0, 100%, NaN%)".
Proof.
  intros Hm Hd Hne Hzero.
  pose proof (maxTime_of_zeros _ Hne Hzero) as Hmax.
  rewrite (updateChoropleth_ok d m merged Hm Hd). simpl.
  split; [done|]. split; [done|]. split; [done|].
  eexists. split; [done|]. split.
  - unfold L_geoJson. rewrite <- !list_fmap_compose. apply list_fmap_id.
  - intros ft st pop Hin. unfold L_geoJson in Hin.
    apply list_elem_of_fmap in Hin as (ft' & [= -> -> ->] & Hft').
    unfold getStyle. rewrite Hmax, (Hzero _ Hft'). simpl. done.
Qed.

(** ** The summary *)

(** A field that is missing or holds a falsy value counts for 0. *)
Lemma count_missing (ft : feature) (k : string) :
  ToBoolean (get (properties ft) k) = false → count ft k = 0%float.
Proof. intros H. unfold count, or_else. rewrite H. reflexivity. Qed.

(** A field that holds digits counts for their value. *)
Lemma count_digits (ft : feature) (k s : string) :
  get (properties ft) k = VStr s → s ≠ "" →
  count ft k = ParseInt.parseInt s.
Proof.
  intros H Hs. unfold count, or_else. rewrite H. simpl.
  destruct s; [done|]. reflexivity.
Qed.

(** ** The options of a select *)












(** ** A failed load *)

(** When a request fails, [loadData] returns normally, with the error in
    the log and nothing else changed. *)
Lemma loadData_failed (net : network) (d : dashboard) :
  (∃ e, fetchGoogleSheet net = Throw e) ∨ (∃ e, boundary_file net = Throw e) →
  ∃ e, (fetchGoogleSheet net = Throw e ∨ boundary_file net = Throw e)
       ∧ loadData net d = (Ok tt, set_console (console d ++ [e]) d).
Proof.
  unfold loadData, try_catch, console_error, update, throw.
  intros [[e He]|[e He]]; rewrite He.
  - destruct (boundary_file net) as [g|eb] eqn:Hb; simpl.
    + exists e. split; [by left|done].
    + destruct (boundary_settles_first net); [exists eb|exists e];
        (split; [tauto|done]).
  - destruct (fetchGoogleSheet net) as [rows|ea] eqn:Ha; simpl.
    + exists e. split; [by right|done].
    + destruct (boundary_settles_first net); [exists e|exists ea];
        (split; [tauto|done]).
Qed.

(** After a failed load [init] runs its other steps on the state that
    [loadData] leaves. *)
Lemma init_after_failed_load (host_page : page) (net : network) :
  (∃ e, fetchGoogleSheet net = Throw e) ∨ (∃ e, boundary_file net = Throw e) →
  ∃ e, (fetchGoogleSheet net = Throw e ∨ boundary_file net = Throw e)
       ∧ WarDashboard host_page net
         = (initMap;; initFilters;; initDatePicker;; updateDashboard)
             (set_console [e] (constructor host_page)).
Proof.
  intros H. unfold WarDashboard, init. unfold bind at 1.
  destruct (loadData_failed net (constructor host_page) H) as (e & He & ->).
  by exists e.
Qed.

(** The last of these steps throws: [applyFilters] reads
    [this.mergedData], which was never set. *)
Lemma init_throws_after_failed_load (host_page : page) (net : network) :
  (∃ e, fetchGoogleSheet net = Throw e) ∨ (∃ e, boundary_file net = Throw e) →
  (WarDashboard host_page net).1 = Throw (TypeError "this.mergedData is undefined").
Proof.
  intros H. by destruct (init_after_failed_load host_page net H) as (e & _ & ->).
Qed.

(** C9. When either request fails, the error is logged and nothing is
    stored: no rows, no boundaries, no merged set. [init] goes on all the
    same: the map is created with its tiles and legend, each select receives
    the sentinel option, the date picker is attached; no layer is drawn and
    the counters and the headline list stay as the page had them. *)
Theorem C9_failed_load_is_logged_and_init_goes_on (host_page : page) (net : network) :
  (∃ e, fetchGoogleSheet net = Throw e) ∨ (∃ e, boundary_file net = Throw e) →
  ∃ e,
    (fetchGoogleSheet net = Throw e ∨ boundary_file net = Throw e)
    ∧ let d := (WarDashboard host_page net).2 in
      console d = [e]
      ∧ sheetData d = [] ∧ geoData d = None ∧ mergedData d = None
      ∧ the_map d = Some {| tiles := true; legend := true; shown := None |}
      ∧ currentLayer d = None
      ∧ filters d = initial_filters
      ∧ state_filter (document d) = (state_filter host_page ++ [make_option ALL])%list
      ∧ township_filter (document d)
        = (township_filter host_page ++ [make_option ALL])%list
      ∧ group_filter (document d) = [make_option ALL]
      ∧ date_range (document d) = true
      ∧ sacrifice_sac (document d) = sacrifice_sac host_page
      ∧ revolution_martyrs (document d) = revolution_martyrs host_page
      ∧ captured_bases (document d) = captured_bases host_page
      ∧ prisoners_war (document d) = prisoners_war host_page
      ∧ headlines (document d) = headlines host_page.
Proof.
  intros H.
  destruct (init_after_failed_load host_page net H) as (e & He & Heq).
  exists e. split; [done|]. rewrite Heq. simpl. repeat split; reflexivity.
Qed.

(** ** The summary, on what the sheet can hold *)

(** C5. A count field that holds text with no leading digits makes its
    counter NaN: [parseInt] is applied after the default, so its NaN is
    added to the sum. Here one record of the sheet holds "n/a" in the first
    count column. *)
Theorem C5_unparseable_count_gives_NaN :
  let sheetData :=
    processSheetData [["TS_MMR_DASH"; "စကစကျဆုံး"]; ["town1"; "n/a"]] in
  let geoData :=
    {| features := [ {| geometry := Polygon [];
                        properties := {[ "TS_MMR" := VStr "town1" ]} |} ] |} in
  let data := applyFilters initial_filters (mergeData sheetData geoData) in
  length data = 1%nat
  ∧ summaryTotals data
    = {| sacrificeSac := PrimFloat.nan; revolutionMartyrs := 0;
         capturedBases := 0; prisonersWar := 0 |}
  ∧ ∀ d, sacrifice_sac (document (updateSummaryCards data d).2) = "NaN".
Proof. vm_compute. repeat split. Qed.

(** C6. In the scenario the merged totalTime values are 5 and 0, no filter
    removes a feature, the maximum is 5, and the lightness is 50 for town1
    (intensity 5 / 5 = 1) and 100 for town2. *)
Theorem C6_end_to_end_scenario :
  let merged := mergeData scenario_rows scenario_boundaries in
  let filteredData := applyFilters initial_filters merged in
  (λ ft, get (properties ft) "totalTime") <$> merged = [VNum 5; VNum 0]
  ∧ filteredData = merged
  ∧ maxTime_of filteredData = 5%float
  ∧ (λ ft, lightness (ToNumber (get (properties ft) "totalTime"))
             (maxTime_of filteredData)) <$> filteredData
    = [50%float; 100%float]
  ∧ (λ ft, fillColor (getStyle ft (maxTime_of filteredData))) <$> filteredData
    = ["hsl(0, 100%, 50%)"; "hsl(0, 100%, 100%)"].
Proof. vm_compute. repeat split. Qed.

(** * Further properties *)

(** ** The rows of the sheet *)

Lemma assign_other (header k : string) (v : cell) (item : row) :
  k ≠ header → assign header v item !! k = item !! k.
Proof.
  intros Hk. unfold assign. destruct (String.eqb header "__proto__"); [done|].
  by rewrite lookup_insert_ne.
Qed.

Lemma assign_same (header : string) (v : cell) (item : row) :
  header ≠ "__proto__" → assign header v item !! header = Some v.
Proof.
  intros Hh. unfold assign. apply String.eqb_neq in Hh. rewrite Hh.
  by rewrite lookup_insert_eq.
Qed.

Lemma assign_proto (v : cell) (item : row) : assign "__proto__" v item = item.
Proof. reflexivity. Qed.

Lemma set_headers_other (headers : list string) (index : nat) (r : list string)
    (item : row) (k : string) :
  k ∉ headers → set_headers headers index r item !! k = item !! k.
Proof.
  revert index item. induction headers as [|h rest IH]; intros index item Hk; [done|].
  apply not_elem_of_cons in Hk as [Hne Hk]. simpl.
  rewrite IH by done. by apply assign_other.
Qed.

Lemma set_headers_proto (headers : list string) (index : nat) (r : list string)
    (item : row) :
  set_headers headers index r item !! "__proto__" = item !! "__proto__".
Proof.
  revert index item. induction headers as [|h rest IH]; intros index item; [done|].
  simpl. rewrite IH. destruct (decide (h = "__proto__")) as [->|Hne].
  - by rewrite assign_proto.
  - by apply assign_other.
Qed.

Lemma set_headers_last (headers : list string) (index : nat) (r : list string)
    (item : row) (n : nat) (h : string) :
  h ≠ "__proto__" →
  headers !! n = Some h →
  (∀ n', (n < n')%nat → headers !! n' ≠ Some h) →
  set_headers headers index r item !! h = Some (r !! (index + n)%nat).
Proof.
  intros Hh. revert index item n.
  induction headers as [|h0 rest IH]; intros index item n Hn Hlast.
  { done. }
  destruct n as [|n]; simpl in *.
  - injection Hn as ->. rewrite set_headers_other.
    + rewrite assign_same by done. by rewrite Nat.add_0_r.
    + intros Hin. apply list_elem_of_lookup in Hin as [n' Hn'].
      apply (Hlast (S n')); [lia|done].
  - rewrite (IH (S index) _ n Hn).
    + do 2 f_equal. lia.
    + intros n' Hlt. apply (Hlast (S n')). lia.
Qed.

Lemma set_headers_keys (headers : list string) (index : nat) (r : list string)
    (item : row) (k : string) :
  is_Some (set_headers headers index r item !! k)
  ↔ (k ∈ headers ∧ k ≠ "__proto__") ∨ is_Some (item !! k).
Proof using.
  destruct (decide (k = "__proto__")) as [->|Hk].
  { rewrite set_headers_proto. split; [by right|]. by intros [[_ ?]|?]. }
  revert index item. induction headers as [|h rest IH]; intros index item; simpl.
  { rewrite elem_of_nil. split; [by right|]. by intros [[[] _]|?]. }
  rewrite IH, elem_of_cons. destruct (decide (h = k)) as [->|Hne].
  - rewrite assign_same by done. split.
    + intros _. left. split; [by left|done].
    + intros _. right. by eexists.
  - rewrite assign_other by done. split.
    + intros [[H ?]|H]; [left; split; [by right|done]|by right].
    + intros [[[->|H] ?]|H]; [done|by left|by right].
Qed.

(** X1. [processSheetData] gives one record per row below the header row,
    in order (none when there is no row at all), and the keys of every
    record are exactly the headers other than [__proto__], a name whose
    assignment creates no key. *)
Theorem processSheetData_shape (headers : list string) (body : list (list string)) :
  processSheetData [] = []
  ∧ length (processSheetData (headers :: body)) = length body
  ∧ ∀ j r, body !! j = Some r →
      ∃ item, processSheetData (headers :: body) !! j = Some item
              ∧ (∀ k, is_Some (item !! k) ↔ k ∈ headers ∧ k ≠ "__proto__")
              ∧ item !! "__proto__" = None.
Proof using.
  split; [done|]. unfold processSheetData. simpl. split; [apply length_fmap|].
  intros j r Hj. eexists. rewrite list_lookup_fmap, Hj. split; [done|]. split.
  - intros k. rewrite set_headers_keys, lookup_empty. split; [|by left].
    intros [H|[x Hx]]; done.
  - by rewrite set_headers_proto.
Qed.

(** X2. In a record, the key named by a header other than [__proto__]
    holds the cell of the row in that header's column, and [undefined] when
    the row is too short to have one; when a header occurs twice its last
    column wins. A name that is no header is no key of the record, so that
    it reads as [undefined] when [Object.prototype] does not hold it
    either. *)
Theorem processSheetData_cells (headers : list string) (body : list (list string))
    (j : nat) (r : list string) :
  body !! j = Some r →
  ∃ item,
    processSheetData (headers :: body) !! j = Some item
    ∧ (∀ n h, h ≠ "__proto__" → headers !! n = Some h →
              (∀ n', (n < n')%nat → headers !! n' ≠ Some h) →
              item !! h = Some (r !! n))
    ∧ (∀ n h, h ≠ "__proto__" → headers !! n = Some h →
              (∀ n', (n < n')%nat → headers !! n' ≠ Some h) →
              (length r ≤ n)%nat → item !! h = Some None)
    ∧ (∀ k, k ∉ headers → item !! k = None)
    ∧ (∀ k, k ∉ headers → k ∉ Object_prototype_names →
            Cell.to_value (field item k) = VUndef).
Proof.
  intros Hj. unfold processSheetData. simpl. eexists.
  rewrite list_lookup_fmap, Hj. split; [done|].
  assert (∀ n h, h ≠ "__proto__" → headers !! n = Some h →
            (∀ n', (n < n')%nat → headers !! n' ≠ Some h) →
            set_headers headers 0 r ∅ !! h = Some (r !! n)) as Hcell.
  { intros n h Hh Hn Hlast.
    by rewrite (set_headers_last headers 0 r ∅ n h Hh Hn Hlast). }
  split; [exact Hcell|]. split; [|split].
  - intros n h Hh Hn Hlast Hshort. rewrite (Hcell n h Hh Hn Hlast).
    by rewrite (lookup_ge_None_2 r n Hshort).
  - intros k Hk. by rewrite set_headers_other, lookup_empty.
  - intros k Hk _. unfold field. by rewrite set_headers_other, lookup_empty.
Qed.

(** ** The load *)

(** X3. [loadData] never throws, and it stores all or nothing: with both
    answers the rows, the boundaries and their merge are stored and nothing
    is logged; otherwise the state keeps its data and the log gains one
    entry. *)
Theorem loadData_all_or_nothing (net : network) (d : dashboard) :
  (loadData net d).1 = Ok tt
  ∧ ((∃ rows geo,
        sheet_values net = Ok (Some rows) ∧ boundary_file net = Ok geo
        ∧ (loadData net d).2
          = set_loaded (processSheetData rows) geo
              (mergeData (processSheetData rows) geo) d)
     ∨ (∃ e, (loadData net d).2 = set_console (console d ++ [e]) d
             ∧ (fetchGoogleSheet net = Throw e ∨ boundary_file net = Throw e))).
Proof.
  unfold loadData, try_catch, console_error, update, throw, fetchGoogleSheet.
  destruct (sheet_values net) as [[rows|]|ea], (boundary_file net) as [geo|eb];
    simpl; try destruct (boundary_settles_first net); simpl;
    (split; [done|]); eauto 10.
Qed.

(** ** The frame of a rendering *)

(** A rendering, whether it returns or throws, touches only the map, the
    current layer, the counters and the headline list. *)
Lemma updateChoropleth_frame (d : dashboard) :
  state_filter (document (updateChoropleth d).2) = state_filter (document d)
  ∧ township_filter (document (updateChoropleth d).2) = township_filter (document d)
  ∧ group_filter (document (updateChoropleth d).2) = group_filter (document d)
  ∧ change_listeners (document (updateChoropleth d).2) = change_listeners (document d)
  ∧ date_range (document (updateChoropleth d).2) = date_range (document d)
  ∧ filters (updateChoropleth d).2 = filters d
  ∧ sheetData (updateChoropleth d).2 = sheetData d
  ∧ geoData (updateChoropleth d).2 = geoData d
  ∧ mergedData (updateChoropleth d).2 = mergedData d
  ∧ console (updateChoropleth d).2 = console d.
Proof.
  destruct d as [[mp|] geo sheet [md|] [cur|] flt doc con]; done.
Qed.

(** No feature fails the filters that the constructor sets. *)
Lemma applyFilters_initial (merged : list feature) :
  applyFilters initial_filters merged = merged.
Proof.
  unfold applyFilters. induction merged as [|ft merged IH]; [done|].
  simpl. by rewrite IH.
Qed.

Lemma L_geoJson_features (filteredData : list feature) (maxTime : float) :
  (L_geoJson filteredData maxTime).*1.*1 = filteredData.
Proof.
  unfold L_geoJson. rewrite <- !list_fmap_compose. apply list_fmap_id.
Qed.

(** What the listeners and [init] run before they render. *)
Lemma on_group_change_unfold (v : string) (d : dashboard) :
  on_group_change v d = updateChoropleth (set_filters (set_group v (filters d)) d).
Proof. reflexivity. Qed.

Lemma on_dates_change_unfold (dates : list float) (d : dashboard) :
  on_dates_change dates d
  = updateChoropleth
      (set_filters (set_dates (dates !! 0%nat) (dates !! 1%nat) (filters d)) d).
Proof. reflexivity. Qed.



(** ** The options of the other selects *)


















(** ** Listeners that only render again *)

(** X7. A change of the group select or of the date range does not
    cascade: the three selects keep their options and only the group filter,
    or the two date bounds, change. The bounds are the first and the second
    selected date, each unset when the picker gives fewer. *)
Theorem rerender_only (d : dashboard) (v : string) (dates : list float) :
  (let d' := (on_group_change v d).2 in
   state_filter (document d') = state_filter (document d)
   ∧ township_filter (document d') = township_filter (document d)
   ∧ group_filter (document d') = group_filter (document d)
   ∧ filters d' = set_group v (filters d))
  ∧ (let d' := (on_dates_change dates d).2 in
     state_filter (document d') = state_filter (document d)
     ∧ township_filter (document d') = township_filter (document d)
     ∧ group_filter (document d') = group_filter (document d)
     ∧ state (filters d') = state (filters d)
     ∧ township (filters d') = township (filters d)
     ∧ group (filters d') = group (filters d)
     ∧ startDate (filters d') = dates !! 0%nat
     ∧ endDate (filters d') = dates !! 1%nat
     ∧ (dates = [] → startDate (filters d') = None ∧ endDate (filters d') = None)
     ∧ (∀ a, dates = [a] →
             startDate (filters d') = Some a ∧ endDate (filters d') = None)).
Proof.
  split.
  - cbv zeta. rewrite on_group_change_unfold.
    destruct (updateChoropleth_frame (set_filters (set_group v (filters d)) d))
      as (-> & -> & -> & _ & _ & -> & _).
    done.
  - cbv zeta. rewrite on_dates_change_unfold.
    destruct (updateChoropleth_frame
                (set_filters
                   (set_dates (dates !! 0%nat) (dates !! 1%nat) (filters d)) d))
      as (-> & -> & -> & _ & _ & -> & _).
    simpl. repeat split; try done; by subst.
Qed.

(** ** Rendering, with and without data *)


Lemma render_without_data (d : dashboard) :
  mergedData d = None → currentLayer d = None →
  updateChoropleth d = (Throw (TypeError "this.mergedData is undefined"), d).
Proof.
  destruct d as [mp geo sheet md cur flt doc con]. simpl.
  intros -> ->. reflexivity.
Qed.



(** X10. While the merged set is unset (as after a failed load) and no
    layer has been drawn, every listener throws the TypeError of
    [applyFilters]; the map, the counters and the headline list are left as
    they were and no layer is drawn. The state listener has by then reset
    the township and group filters. *)
Theorem listeners_throw_without_data (d : dashboard) :
  mergedData d = None → currentLayer d = None →
  let unchanged (d' : dashboard) :=
    the_map d' = the_map d ∧ currentLayer d' = None
    ∧ sacrifice_sac (document d') = sacrifice_sac (document d)
    ∧ revolution_martyrs (document d') = revolution_martyrs (document d)
    ∧ captured_bases (document d') = captured_bases (document d)
    ∧ prisoners_war (document d') = prisoners_war (document d)
    ∧ headlines (document d') = headlines (document d) in
  let failure : result unit := Throw (TypeError "this.mergedData is undefined") in
  (∀ v, (on_state_change v d).1 = failure ∧ unchanged (on_state_change v d).2
        ∧ filters (on_state_change v d).2
          = set_group ALL (set_township ALL (set_state v (filters d))))
  ∧ (∀ v, (on_township_change v d).1 = failure
          ∧ unchanged (on_township_change v d).2)
  ∧ (∀ v, (on_group_change v d).1 = failure ∧ unchanged (on_group_change v d).2)
  ∧ (∀ dates, (on_dates_change dates d).1 = failure
              ∧ unchanged (on_dates_change dates d).2).
Proof.
  intros Hd Hc unchanged failure. subst unchanged failure. simpl.
  destruct d as [mp geo sheet md cur flt doc con]. simpl in Hd, Hc. subst md cur.
  repeat split.
Qed.

(** ** The maximum *)

Lemma max2_choice (a b : float) :
  PrimFloat.is_nan a = false → PrimFloat.is_nan b = false →
  Number.max2 a b = a ∨ Number.max2 a b = b.
Proof.
  intros Ha Hb. unfold Number.max2. rewrite Ha, Hb. simpl.
  destruct (PrimFloat.ltb a b); [by right|].
  destruct (PrimFloat.ltb b a); [by left|].
  destruct (PrimFloat.is_zero a && PrimFloat.is_zero b); [|by left].
  destruct (PrimFloat.get_sign a); [by right|by left].
Qed.

Lemma max_from (xs : list float) (init : float) :
  PrimFloat.is_nan init = false →
  Forall (λ x, PrimFloat.is_nan x = false) xs →
  PrimFloat.is_nan (fold_left Number.max2 xs init) = false
  ∧ (fold_left Number.max2 xs init = init ∨ fold_left Number.max2 xs init ∈ xs).
Proof.
  intros Hinit Hxs. revert init Hinit.
  induction Hxs as [|x xs Hx _ IH]; intros init Hinit; simpl; [by split; [|left]|].
  destruct (max2_choice init x Hinit Hx) as [E|E]; rewrite E.
  - destruct (IH init Hinit) as [Hn [H|H]]; split; try done.
    + by left.
    + right. by apply list_elem_of_further.
  - destruct (IH x Hx) as [Hn [H|H]]; split; try done.
    + right. rewrite H. apply list_elem_of_here.
    + right. by apply list_elem_of_further.
Qed.

(** X11. Over any filtered part of a merged set the maximum that the
    rendering computes is never NaN: it is -∞, which it is for the empty set,
    or the totalTime of one of the filtered features. *)
Theorem maxTime_of_merged (sheetData : list row) (geoData : geojson)
    (f : filter_state) :
  let filteredData := applyFilters f (mergeData sheetData geoData) in
  PrimFloat.is_nan (maxTime_of filteredData) = false
  ∧ (maxTime_of filteredData = neg_infinity
     ∨ ∃ ft, ft ∈ filteredData
             ∧ get (properties ft) "totalTime" = VNum (maxTime_of filteredData))
  ∧ (filteredData = [] → maxTime_of filteredData = neg_infinity).
Proof.
  intros filteredData.
  assert (∀ ft, ft ∈ filteredData →
            ∃ x, get (properties ft) "totalTime" = VNum x
                 ∧ PrimFloat.is_nan x = false) as Hnum.
  { intros ft Hft. unfold filteredData, applyFilters in Hft.
    apply list_elem_of_In, filter_In in Hft as [Hft _].
    apply list_elem_of_In, list_elem_of_fmap in Hft as (ft0 & -> & _).
    destruct (merge_feature_totalTime sheetData ft0) as (x & Hx & Hn & _). eauto. }
  assert (Forall (λ x, PrimFloat.is_nan x = false)
            ((λ d, ToNumber (get (properties d) "totalTime")) <$> filteredData))
    as Hall.
  { apply Forall_fmap, Forall_forall. intros ft Hft. simpl.
    destruct (Hnum ft Hft) as (x & -> & Hn). done. }
  destruct (max_from _ neg_infinity eq_refl Hall) as [Hn Hor].
  unfold maxTime_of, Number.max. split; [exact Hn|]. split.
  - destruct Hor as [H|H]; [by left|right].
    apply list_elem_of_fmap in H as (ft & Heq & Hft). exists ft. split; [done|].
    destruct (Hnum ft Hft) as (x & Hx & _). rewrite Heq, Hx. done.
  - intros ->. done.
Qed.

(** ** The summary of blank counts *)

(** X12. When no feature of the set holds a truthy value in any of the
    five count fields (each is missing, [undefined] or empty), the four sums
    are 0 and the four counters show 0. *)
Theorem summary_of_blank_counts (data : list feature) :
  (∀ ft k, ft ∈ data → k ∈ count_fields →
           ToBoolean (get (properties ft) k) = false) →
  summaryTotals data
  = {| sacrificeSac := 0; revolutionMartyrs := 0;
       capturedBases := 0; prisonersWar := 0 |}
  ∧ ∀ d, let p := document (updateSummaryCards data d).2 in
         sacrifice_sac p = "0" ∧ revolution_martyrs p = "0"
         ∧ captured_bases p = "0" ∧ prisoners_war p = "0".
Proof.
  intros Hblank.
  assert (summaryTotals data
          = {| sacrificeSac := 0; revolutionMartyrs := 0;
               capturedBases := 0; prisonersWar := 0 |}) as Hsum.
  { unfold summaryTotals.
    induction data as [|ft data IH]; [done|]. simpl.
    unfold add_feature at 2. simpl.
    rewrite !count_missing.
    - apply IH. intros ft' k Hft' Hk. apply Hblank; [|done].
      by apply list_elem_of_further.
    - apply Hblank; [apply list_elem_of_here|]. unfold count_fields.
      rewrite !elem_of_cons. tauto.
    - apply Hblank; [apply list_elem_of_here|]. unfold count_fields.
      rewrite !elem_of_cons. tauto.
    - apply Hblank; [apply list_elem_of_here|]. unfold count_fields.
      rewrite !elem_of_cons. tauto.
    - apply Hblank; [apply list_elem_of_here|]. unfold count_fields.
      rewrite !elem_of_cons. tauto.
    - apply Hblank; [apply list_elem_of_here|]. unfold count_fields.
      rewrite !elem_of_cons. tauto. }
  split; [exact Hsum|]. intros d. unfold updateSummaryCards. rewrite Hsum.
  simpl. done.
Qed.

(** ** The join under the filters *)

Lemma merge_feature_matched (sheetData : list row) (ft : feature) (name : string) :
  get (properties ft) "TS_MMR" = VStr name →
  (∃ r, r ∈ sheetData ∧ field r "TS_MMR_DASH" = Some name) →
  get (properties (merge_feature sheetData ft)) "TS_MMR_DASH" = VStr name.
Proof.
  intros Hname (r & Hr & Hf). unfold merge_feature. rewrite Hname.
  destruct (List.find _ sheetData) as [entry|] eqn:Hfind.
  - apply find_some in Hfind as [_ Hm]. apply strict_eq_cell in Hm.
    simpl. unfold get. rewrite lookup_insert_ne by done.
    rewrite lookup_union, lookup_fmap.
    unfold field in Hm.
    destruct (entry !! "TS_MMR_DASH") as [[t|]|],
      (properties ft !! "TS_MMR_DASH"); simpl in *; by simplify_eq.
  - apply find_nothing with (x := r) in Hfind; [|done].
    rewrite Hf in Hfind. simpl in Hfind. by rewrite String.eqb_refl in Hfind.
Qed.

(** X13. With a township selected and nothing else filtered, a boundary
    that some record names is kept exactly when its TS_MMR is the selected
    township: the join has given it a TS_MMR_DASH equal to its TS_MMR. A
    boundary that no record names, and that carries no TS_MMR_DASH of its
    own, is dropped. *)
Theorem township_filter_on_join (sheetData : list row) (ft : feature)
    (name T : string) :
  get (properties ft) "TS_MMR" = VStr name →
  T ≠ ALL →
  ((∃ r, r ∈ sheetData ∧ field r "TS_MMR_DASH" = Some name) →
   keep (set_township T initial_filters) (merge_feature sheetData ft) = true
   ↔ name = T)
  ∧ ((∀ r, r ∈ sheetData → field r "TS_MMR_DASH" ≠ Some name) →
     properties ft !! "TS_MMR_DASH" = None →
     keep (set_township T initial_filters) (merge_feature sheetData ft) = false).
Proof.
  intros Hname HT.
  assert (String.eqb T ALL = false) as HTb by by apply String.eqb_neq.
  split.
  - intros Hmatch. unfold keep. cbv zeta.
    rewrite (merge_feature_matched _ _ _ Hname Hmatch).
    cbn [township set_township state group startDate endDate initial_filters].
    rewrite HTb, !String.eqb_refl. cbn [strict_eq orb andb].
    rewrite andb_true_r. apply String.eqb_eq.
  - intros Hno Hown. rewrite merge_feature_unmatched.
    + unfold keep, get. cbv zeta.
      cbn [township set_township state group startDate endDate initial_filters
           properties].
      rewrite HTb, !String.eqb_refl, !lookup_insert_ne, Hown by done.
      cbn [default strict_eq orb]. by rewrite !andb_false_r.
    + intros r Hr E. rewrite Hname in E. apply (Hno r Hr).
      destruct (field r "TS_MMR_DASH"); simpl in E; by simplify_eq.
Qed.

Lemma leb_nan_r (x : float) : PrimFloat.leb x PrimFloat.nan = false.
Proof. rewrite leb_spec. by destruct (Prim2SF x) as [| | |[] ? ?]. Qed.

Lemma leb_nan_l (x : float) : PrimFloat.leb PrimFloat.nan x = false.
Proof. rewrite leb_spec. by destruct (Prim2SF x). Qed.

(** X14. As soon as one bound of the date range is set, a feature whose
    date is invalid is dropped, whatever the bound: so is every feature with
    no Date field, and with it every boundary that no record names and that
    carries no Date of its own. *)
Theorem date_bound_hides_undated (f : filter_state) :
  is_Some (startDate f) ∨ is_Some (endDate f) →
  (∀ ft, new_Date (get (properties ft) "Date") = PrimFloat.nan → keep f ft = false)
  ∧ (∀ ft, properties ft !! "Date" = None → keep f ft = false)
  ∧ (∀ sheetData ft,
       (∀ d, d ∈ sheetData →
             Cell.to_value (field d "TS_MMR_DASH") ≠ get (properties ft) "TS_MMR") →
       properties ft !! "Date" = None →
       keep f (merge_feature sheetData ft) = false).
Proof.
  intros Hbound.
  assert (∀ ft, new_Date (get (properties ft) "Date") = PrimFloat.nan →
                keep f ft = false) as Hnan.
  { intros ft Hd. unfold keep. cbv zeta. rewrite Hd.
    destruct Hbound as [[s ->]|[e ->]].
    - by rewrite leb_nan_r.
    - rewrite leb_nan_l. destruct (startDate f); by rewrite ?leb_nan_r. }
  assert (∀ ft, properties ft !! "Date" = None → keep f ft = false) as Hmiss.
  { intros ft Hd. apply Hnan. unfold get. rewrite Hd. reflexivity. }
  split; [exact Hnan|]. split; [exact Hmiss|].
  intros sheetData ft Hno Hd. apply Hmiss.
  rewrite (merge_feature_unmatched _ _ Hno). simpl.
  by rewrite lookup_insert_ne.
Qed.

(** ** The popup *)

(** X15. The popup of a boundary that no record names shows the fallback
    headline, the count 0 and no link, provided the boundary carries no
    Headline and no Link of its own; its place line prints the boundary's
    own ST_MMR and TS_MMR_DASH, each as the text "undefined" when the
    boundary has none. *)
Theorem popup_of_unmatched_boundary (sheetData : list row) (ft : feature) :
  (∀ d, d ∈ sheetData →
        Cell.to_value (field d "TS_MMR_DASH") ≠ get (properties ft) "TS_MMR") →
  properties ft !! "Headline" = None →
  properties ft !! "Link" = None →
  let p := addPopup (merge_feature sheetData ft) in
  popup_headline p = "အချက်အလက်မရှိပါ"
  ∧ popup_total p = "0"
  ∧ popup_link p = None
  ∧ popup_state p = ToString (get (properties ft) "ST_MMR")
  ∧ popup_township p = ToString (get (properties ft) "TS_MMR_DASH")
  ∧ (properties ft !! "ST_MMR" = None → popup_state p = "undefined")
  ∧ (properties ft !! "TS_MMR_DASH" = None → popup_township p = "undefined").
Proof.
  intros Hno Hh Hl p. subst p. rewrite (merge_feature_unmatched _ _ Hno).
  unfold addPopup, get. simpl.
  rewrite lookup_insert_eq, !lookup_insert_ne, Hh, Hl by done. simpl.
  repeat split; try done.
  - by intros ->.
  - by intros ->.
Qed.

(** ** A load that succeeds *)

Lemma init_after_load (host_page : page) (net : network)
    (rows : list (list string)) (geo : geojson) :
  sheet_values net = Ok (Some rows) →
  boundary_file net = Ok geo →
  ∃ d1,
    WarDashboard host_page net = updateChoropleth d1
    ∧ the_map d1 = Some {| tiles := true; legend := true; shown := None |}
    ∧ mergedData d1 = Some (mergeData (processSheetData rows) geo)
    ∧ sheetData d1 = processSheetData rows
    ∧ geoData d1 = Some geo
    ∧ filters d1 = initial_filters
    ∧ currentLayer d1 = None
    ∧ console d1 = []
    ∧ date_range (document d1) = true.
Proof.
  intros Hs Hb. eexists. split.
  { unfold WarDashboard, init, loadData, fetchGoogleSheet, try_catch.
    rewrite Hs, Hb. reflexivity. }
  done.
Qed.

(** X16. When both requests are answered, [init] returns normally and logs
    nothing; the rows, the boundaries and their merge are stored, the filters
    are those of the constructor, the date picker is attached, and the first
    rendering draws every boundary, named by a record or not, in one layer on
    the map with its tiles and legend; the markup assigned to the headline
    list is the concatenation of one instance of the template per merged
    feature. *)
Theorem init_draws_every_boundary (host_page : page) (net : network)
    (rows : list (list string)) (geo : geojson) :
  sheet_values net = Ok (Some rows) →
  boundary_file net = Ok geo →
  let merged := mergeData (processSheetData rows) geo in
  let d := (WarDashboard host_page net).2 in
  (WarDashboard host_page net).1 = Ok tt
  ∧ console d = []
  ∧ sheetData d = processSheetData rows
  ∧ geoData d = Some geo
  ∧ mergedData d = Some merged
  ∧ filters d = initial_filters
  ∧ date_range (document d) = true
  ∧ headlines (document d) = String.concat "" (headline_html <$> merged)
  ∧ ∃ new_layer,
      currentLayer d = Some new_layer
      ∧ the_map d = Some {| tiles := true; legend := true; shown := Some new_layer |}
      ∧ new_layer.*1.*1 = merged
      ∧ length new_layer = length (features geo).
Proof.
  intros Hs Hb merged d. subst merged d.
  destruct (init_after_load host_page net rows geo Hs Hb)
    as (d1 & -> & Hm & Hd & Hsh & Hg & Hf & Hc & Hcon & Hdate).
  destruct (updateChoropleth_frame d1)
    as (_ & _ & _ & _ & -> & -> & -> & -> & -> & ->).
  rewrite (updateChoropleth_ok d1 _ _ Hm Hd), Hf, applyFilters_initial. simpl.
  repeat split; try done.
  eexists. split; [done|]. split; [done|].
  split; [apply L_geoJson_features|].
  unfold L_geoJson, mergeData. by rewrite !length_fmap.
Qed.

(** ** Join keys that never meet *)

(** X17. When both requests are answered, there is at least one boundary,
    and no record names any boundary (as with a sheet that holds only its
    header row), the first rendering draws the whole merged set, every
    totalTime is 0, the maximum is 0, and every boundary is styled against
    that maximum, which gives each the fill colour of lightness NaN. *)
Theorem unmatched_sheet_renders_NaN (host_page : page) (net : network)
    (rows : list (list string)) (geo : geojson) :
  sheet_values net = Ok (Some rows) →
  boundary_file net = Ok geo →
  features geo ≠ [] →
  (∀ ft d, ft ∈ features geo → d ∈ processSheetData rows →
           Cell.to_value (field d "TS_MMR_DASH") ≠ get (properties ft) "TS_MMR") →
  let merged := mergeData (processSheetData rows) geo in
  (∀ ft, ft ∈ merged → get (properties ft) "totalTime" = VNum 0)
  ∧ applyFilters initial_filters merged = merged
  ∧ maxTime_of merged = 0%float
  ∧ ∃ new_layer,
      currentLayer (WarDashboard host_page net).2 = Some new_layer
      ∧ new_layer.*1.*1 = merged
      ∧ length new_layer = length (features geo)
      ∧ ∀ ft st pop, (ft, st, pop) ∈ new_layer →
          ft ∈ merged
          ∧ st = getStyle ft 0
          ∧ lightness (ToNumber (get (properties ft) "totalTime")) 0 = PrimFloat.nan
          ∧ fillColor st = "hsl(0, 100%, NaN%)".
Proof.
  intros Hs Hb Hne Hno merged. subst merged.
  destruct (init_after_load host_page net rows geo Hs Hb)
    as (d1 & -> & Hm & Hd & _ & _ & Hf & _).
  rewrite (updateChoropleth_ok d1 _ _ Hm Hd), Hf, applyFilters_initial. simpl.
  assert (∀ ft, ft ∈ mergeData (processSheetData rows) geo →
                get (properties ft) "totalTime" = VNum 0) as Hzero.
  { intros ft Hft. apply list_elem_of_fmap in Hft as (ft0 & -> & Hft0).
    rewrite merge_feature_unmatched by (intros d Hd'; by apply Hno).
    unfold get. simpl. by rewrite lookup_insert_eq. }
  assert (mergeData (processSheetData rows) geo ≠ []) as Hne'.
  { unfold mergeData. destruct (features geo); [done|]. done. }
  pose proof (maxTime_of_zeros _ Hne' Hzero) as Hmax.
  split; [exact Hzero|]. split; [done|]. split; [exact Hmax|].
  eexists. split; [done|]. split; [apply L_geoJson_features|]. split.
  { unfold L_geoJson, mergeData. by rewrite !length_fmap. }
  intros ft st pop Hin. unfold L_geoJson in Hin.
  apply list_elem_of_fmap in Hin as (ft' & [= -> -> ->] & Hft').
  rewrite Hmax. split; [done|]. split; [done|].
  unfold getStyle. rewrite (Hzero _ Hft'). split; reflexivity.
Qed.

(** ** Rendering twice *)


End Host.

(** * The properties on the fixtures *)

(** C1 on the scenario: no record carries town2, the second boundary. *)
Lemma C1_witness :
  features scenario_boundaries !! 1%nat = Some (town "town2")
  ∧ (∀ d, d ∈ scenario_rows →
          Cell.to_value (field d "TS_MMR_DASH") ≠ get (properties (town "town2")) "TS_MMR")
  ∧ ∃ merged,
      mergeData scenario_rows scenario_boundaries !! 1%nat = Some merged
      ∧ geometry merged = geometry (town "town2")
      ∧ get (properties merged) "totalTime" = VNum 0
      ∧ (∀ k, k ≠ "totalTime" →
              properties merged !! k = properties (town "town2") !! k)
      ∧ (∀ k, k ≠ "totalTime" → properties (town "town2") !! k = None →
              get (properties merged) k = VUndef).
Proof.
  assert (∀ d, d ∈ scenario_rows →
            Cell.to_value (field d "TS_MMR_DASH")
            ≠ get (properties (town "town2")) "TS_MMR") as Hno.
  { intros d Hd. apply list_elem_of_singleton in Hd. subst d.
    vm_compute. discriminate. }
  split; [reflexivity|]. split; [exact Hno|].
  apply (proj2 (C1_mergeData_outer_join scenario_rows scenario_boundaries)
           1%nat (town "town2")); [reflexivity|exact Hno].
Defined.

(** C2 on the scenario: with the state filter on S1, town1 passes and
    town2 does not. *)
Lemma C2_witness :
  let f := set_state "S1" initial_filters in
  let merged := mergeData scenario_rows scenario_boundaries in
  ∃ ft1 ft2,
    merged = [ft1; ft2]
    ∧ passes no_date no_numeral f ft1
    ∧ ¬ passes no_date no_numeral f ft2
    ∧ applyFilters no_date no_numeral f merged = [ft1].
Proof.
  intros f merged.
  destruct (C2_applyFilters_conjunction no_date no_numeral f)
    as (Hnil & Hyes & Hno & _).
  exists (merge_feature scenario_rows (town "town1")),
    (merge_feature scenario_rows (town "town2")).
  split; [reflexivity|].
  assert (passes no_date no_numeral f (merge_feature scenario_rows (town "town1")))
    as H1.
  { repeat split; try (by left); try discriminate. by right. }
  assert (¬ passes no_date no_numeral f (merge_feature scenario_rows (town "town2")))
    as H2.
  { intros (_ & [H|H] & _); vm_compute in H; discriminate. }
  split; [exact H1|]. split; [exact H2|].
  change merged with [merge_feature scenario_rows (town "town1");
                      merge_feature scenario_rows (town "town2")].
  rewrite (Hyes _ _ H1), (Hno _ _ H2). by rewrite Hnil.
Defined.

(** C3 on the scenario: town1 takes the fields of the one record. *)
Lemma C3_witness :
  features scenario_boundaries !! 0%nat = Some (town "town1")
  ∧ ∃ merged,
      mergeData scenario_rows scenario_boundaries !! 0%nat = Some merged
      ∧ get (properties merged) "totalTime" = VNum 5
      ∧ get (properties merged) "ST_MMR" = VStr "S1".
Proof.
  split; [reflexivity|].
  destruct (C3_mergeData_first_match scenario_rows scenario_boundaries
              0%nat (town "town1") eq_refl)
    as (merged & Hm & _ & _).
  exists merged. split; [exact Hm|].
  vm_compute in Hm. injection Hm as <-. split; reflexivity.
Defined.

(** C4 on a feature of value 50 under the maximum 100. *)
Lemma C4_witness :
  let ft := {| geometry := Polygon [];
               properties := {[ "totalTime" := VNum 50 ]} |} in
  get (properties ft) "totalTime" = VNum 50
  ∧ fillColor (getStyle no_numeral no_fraction ft 100) = "hsl(0, 100%, 75%)".
Proof.
  intros ft. split; [reflexivity|].
  apply (C4_getStyle_lightness no_numeral no_fraction ft 50 100 eq_refl);
    reflexivity.
Defined.


(** C8 on the scenario with a state that no record has. *)
Lemma C8_witness :
  let d := loaded scenario_rows scenario_boundaries (set_state "S9" initial_filters) in
  applyFilters no_date no_numeral (filters d)
    (mergeData scenario_rows scenario_boundaries) = []
  ∧ (updateChoropleth no_date no_numeral no_fraction d).1 = Ok tt
  ∧ sacrifice_sac (document (updateChoropleth no_date no_numeral no_fraction d).2)
    = "0".
Proof.
  intros d.
  assert (applyFilters no_date no_numeral (filters d)
            (mergeData scenario_rows scenario_boundaries) = []) as Hempty.
  { vm_compute. reflexivity. }
  split; [exact Hempty|].
  destruct (C8_empty_filtered_set no_date no_numeral no_fraction d
              {| tiles := true; legend := true; shown := None |}
              (mergeData scenario_rows scenario_boundaries)
              eq_refl eq_refl Hempty)
    as (_ & Hok & _ & _ & _ & Hzero & _).
  split; [exact Hok|exact Hzero].
Defined.

(** C9 when the sheet cannot be reached. *)
Lemma C9_witness :
  fetchGoogleSheet sheet_down = Throw (Rejected "Network Error")
  ∧ console (WarDashboard no_date no_numeral no_fraction blank_page sheet_down).2
    = [Rejected "Network Error"]
  ∧ the_map (WarDashboard no_date no_numeral no_fraction blank_page sheet_down).2
    = Some {| tiles := true; legend := true; shown := None |}.
Proof.
  split; [reflexivity|].
  destruct (C9_failed_load_is_logged_and_init_goes_on
              no_date no_numeral no_fraction blank_page sheet_down
              (or_introl (ex_intro _ (Rejected "Network Error") eq_refl)))
    as (e & _ & _ & _ & _ & _ & Hmap & _).
  split; [reflexivity|exact Hmap].
Defined.

(** C10 on the two boundaries with an empty sheet. *)
Lemma C10_witness :
  let d := loaded [] scenario_boundaries initial_filters in
  (∀ ft, ft ∈ applyFilters no_date no_numeral (filters d) (mergeData [] scenario_boundaries) →
         get (properties ft) "totalTime" = VNum 0)
  ∧ maxTime_of no_numeral
      (applyFilters no_date no_numeral (filters d) (mergeData [] scenario_boundaries))
    = 0%float.
Proof.
  intros d.
  assert (∀ ft, ft ∈ applyFilters no_date no_numeral (filters d)
                       (mergeData [] scenario_boundaries) →
                get (properties ft) "totalTime" = VNum 0) as Hzero.
  { intros ft Hft. vm_compute in Hft.
    apply elem_of_cons in Hft as [->|Hft]; [reflexivity|].
    apply list_elem_of_singleton in Hft as ->. reflexivity. }
  split; [exact Hzero|].
  apply (C10_zero_maximum_gives_NaN no_date no_numeral no_fraction d
           {| tiles := true; legend := true; shown := None |}
           (mergeData [] scenario_boundaries) eq_refl eq_refl);
    [vm_compute; discriminate|exact Hzero].
Defined.

(** * Where the specification and the code part *)

(** C1 as the specification has it does not hold for a field that the
    boundary carries itself: no record of the scenario names the boundary,
    and its ST_MMR, a field of the records too, is still "Shan" after the
    merge, not [undefined]. *)
Lemma C1_own_field_is_kept :
  (∀ d, d ∈ scenario_rows →
        Cell.to_value (field d "TS_MMR_DASH") ≠ get (properties shan_boundary) "TS_MMR")
  ∧ (∃ d, d ∈ scenario_rows ∧ is_Some (d !! "ST_MMR"))
  ∧ ¬ (∃ merged,
         mergeData scenario_rows {| features := [shan_boundary] |} !! 0%nat
         = Some merged
         ∧ get (properties merged) "totalTime" = VNum 0
         ∧ get (properties merged) "ST_MMR" = VUndef).
Proof.
  split; [|split].
  - intros d Hd. apply list_elem_of_singleton in Hd. subst d.
    vm_compute. discriminate.
  - eexists. split; [apply list_elem_of_here|]. by eexists.
  - intros (merged & Hm & _ & Hst). vm_compute in Hm. injection Hm as <-.
    vm_compute in Hst. discriminate Hst.
Qed.

(** C6 as the specification has it, with 75 for town1, does not hold: the intensity
    of town1 is 5 / 5 = 1 and its lightness 50. *)
Lemma C6_lightness_75_fails :
  ¬ (let merged := mergeData scenario_rows scenario_boundaries in
     let filteredData := applyFilters no_date no_numeral initial_filters merged in
     (λ ft, get (properties ft) "totalTime") <$> merged = [VNum 5; VNum 0]
     ∧ maxTime_of no_numeral filteredData = 5%float
     ∧ (λ ft, fillColor (getStyle no_numeral no_fraction ft
                           (maxTime_of no_numeral filteredData))) <$> filteredData
       = ["hsl(0, 100%, 75%)"; "hsl(0, 100%, 100%)"]).
Proof. intros (_ & _ & H). vm_compute in H. discriminate H. Qed.

(** C9 as the specification has it does not hold: after the failed request the
    controller is not in the state the constructor left, log apart; the map
    has been created and the selects filled. *)
Lemma C9_init_does_not_abort :
  ¬ (let d := (WarDashboard no_date no_numeral no_fraction blank_page sheet_down).2 in
     console d = [Rejected "Network Error"]
     ∧ the_map d = None
     ∧ document d = blank_page).
Proof. intros (_ & H & _). vm_compute in H. discriminate H. Qed.

(** * The whole controller on the scenario *)

(** [new WarDashboard()] on the blank page, with both requests answered:
    [init] returns, both boundaries are drawn, the selects hold the sentinel
    and the values of the one record, and the counters show 0. *)
Example scenario_renders :
  let net := {| sheet_values :=
                  Ok (Some [["TS_MMR_DASH"; "Time"; "ST_MMR"]; ["town1"; "5"; "S1"]]);
                boundary_file := Ok scenario_boundaries;
                boundary_settles_first := false |} in
  let '(r, d) := WarDashboard no_date no_numeral no_fraction blank_page net in
  r = Ok tt
  ∧ sheetData d = scenario_rows
  ∧ (λ '(_, st, _), fillColor st) <$> default [] (currentLayer d)
    = ["hsl(0, 100%, 50%)"; "hsl(0, 100%, 100%)"]
  ∧ value <$> state_filter (document d) = [ALL; "S1"]
  ∧ value <$> township_filter (document d) = [ALL; "town1"]
  ∧ value <$> group_filter (document d) = [ALL]
  ∧ sacrifice_sac (document d) = "0"
  ∧ headlines (document d)
    = String.concat "" (headline_html no_fraction <$> [town "town1"; town "town2"]).
Proof. vm_compute. repeat split. Qed.

(** * The further properties on the fixtures *)

(** X1 on the scenario's sheet. *)
Lemma processSheetData_shape_witness :
  [["town1"; "5"; "S1"]] !! 0%nat = Some ["town1"; "5"; "S1"]
  ∧ ∃ item, processSheetData scenario_values !! 0%nat = Some item
            ∧ (∀ k, is_Some (item !! k) ↔ k ∈ scenario_headers ∧ k ≠ "__proto__")
            ∧ item !! "__proto__" = None.
Proof.
  split; [reflexivity|].
  apply (proj2 (proj2 (processSheetData_shape scenario_headers
                         [["town1"; "5"; "S1"]]))
           0%nat ["town1"; "5"; "S1"]).
  reflexivity.
Defined.

(** X2 on the scenario's sheet: the Time of the one record. *)
Lemma processSheetData_cells_witness :
  [["town1"; "5"; "S1"]] !! 0%nat = Some ["town1"; "5"; "S1"]
  ∧ ∃ item, processSheetData scenario_values !! 0%nat = Some item
            ∧ item !! "Time" = Some (Some "5")
            ∧ item !! "Date" = None
            ∧ Cell.to_value (field item "Date") = VUndef.
Proof.
  split; [reflexivity|].
  destruct (processSheetData_cells scenario_headers [["town1"; "5"; "S1"]]
              0%nat ["town1"; "5"; "S1"] eq_refl)
    as (item & Hitem & Hcell & _ & Hkey & Hother).
  assert ("Date" ∉ scenario_headers) as Hno.
  { unfold scenario_headers. rewrite !elem_of_cons, elem_of_nil.
    intros [H|[H|[H|[]]]]; discriminate H. }
  exists item. split; [exact Hitem|]. split; [|split].
  - apply (Hcell 1%nat "Time"); [discriminate|reflexivity|].
    intros [|[|[|n']]] Hlt; simpl; try lia; discriminate.
  - apply Hkey. exact Hno.
  - apply Hother; [exact Hno|]. unfold Object_prototype_names.
    rewrite !elem_of_cons, elem_of_nil.
    intros H. repeat (destruct H as [H|H]; [discriminate H|]). exact H.
Defined.

(** X7 when the picker gives one date. *)
Lemma rerender_only_witness :
  let d := loaded scenario_rows scenario_boundaries initial_filters in
  startDate (filters (on_dates_change no_date no_numeral no_fraction [1000%float] d).2)
  = Some 1000%float
  ∧ endDate (filters (on_dates_change no_date no_numeral no_fraction [1000%float] d).2)
    = None.
Proof.
  intros d.
  destruct (rerender_only no_date no_numeral no_fraction d "" [1000%float])
    as (_ & _ & _ & _ & _ & _ & _ & _ & _ & _ & Hone).
  apply (Hone 1000%float). reflexivity.
Defined.



(** X10 on the controller that a failed load leaves. *)
Lemma listeners_throw_without_data_witness :
  mergedData unloaded = None ∧ currentLayer unloaded = None
  ∧ (on_group_change no_date no_numeral no_fraction "G" unloaded).1
    = Throw (TypeError "this.mergedData is undefined").
Proof.
  split; [reflexivity|]. split; [reflexivity|].
  destruct (listeners_throw_without_data no_date no_numeral no_fraction unloaded
              eq_refl eq_refl)
    as (_ & _ & Hgroup & _).
  apply (Hgroup "G").
Defined.

(** X11 with no boundary at all. *)
Lemma maxTime_of_merged_witness :
  applyFilters no_date no_numeral initial_filters (mergeData [] {| features := [] |}) = []
  ∧ maxTime_of no_numeral
      (applyFilters no_date no_numeral initial_filters
         (mergeData [] {| features := [] |}))
    = neg_infinity.
Proof.
  split; [reflexivity|].
  apply (maxTime_of_merged no_date no_numeral [] {| features := [] |} initial_filters).
  reflexivity.
Defined.

(** X12 on a boundary that carries only its name. *)
Lemma summary_of_blank_counts_witness :
  (∀ ft k, ft ∈ [town "town2"] → k ∈ count_fields →
           ToBoolean (get (properties ft) k) = false)
  ∧ summaryTotals no_fraction [town "town2"]
    = {| sacrificeSac := 0; revolutionMartyrs := 0;
         capturedBases := 0; prisonersWar := 0 |}.
Proof.
  assert (∀ ft k, ft ∈ [town "town2"] → k ∈ count_fields →
            ToBoolean (get (properties ft) k) = false) as Hblank.
  { intros ft k Hft Hk. apply list_elem_of_singleton in Hft as ->.
    unfold count_fields in Hk. rewrite !elem_of_cons, elem_of_nil in Hk.
    destruct Hk as [->|[->|[->|[->|[->|[]]]]]]; reflexivity. }
  split; [exact Hblank|].
  apply (summary_of_blank_counts no_fraction [town "town2"] Hblank).
Defined.

(** X13 on the scenario: town1 under the township filter town1. *)
Lemma township_filter_on_join_witness :
  get (properties (town "town1")) "TS_MMR" = VStr "town1"
  ∧ "town1" ≠ ALL
  ∧ (∃ r, r ∈ scenario_rows ∧ field r "TS_MMR_DASH" = Some "town1")
  ∧ keep no_date no_numeral (set_township "town1" initial_filters)
      (merge_feature scenario_rows (town "town1")) = true.
Proof.
  assert ("town1" ≠ ALL) as Hne by discriminate.
  assert (∃ r, r ∈ scenario_rows ∧ field r "TS_MMR_DASH" = Some "town1") as Hrow.
  { eexists. split; [apply list_elem_of_here|reflexivity]. }
  split; [reflexivity|]. split; [exact Hne|]. split; [exact Hrow|].
  apply (proj1 (township_filter_on_join no_date no_numeral scenario_rows
                  (town "town1") "town1" "town1" eq_refl Hne) Hrow).
  reflexivity.
Defined.

(** X14 with a start bound, on a boundary without a Date. *)
Lemma date_bound_hides_undated_witness :
  let f := set_dates (Some 0%float) None initial_filters in
  (is_Some (startDate f) ∨ is_Some (endDate f))
  ∧ properties (town "town2") !! "Date" = None
  ∧ keep no_date no_numeral f (town "town2") = false.
Proof.
  intros f.
  assert (is_Some (startDate f) ∨ is_Some (endDate f)) as Hbound.
  { left. eexists. reflexivity. }
  split; [exact Hbound|]. split; [reflexivity|].
  apply (proj1 (proj2 (date_bound_hides_undated no_date no_numeral f Hbound))).
  reflexivity.
Defined.

(** X15 on the scenario: the popup of town2. *)
Lemma popup_of_unmatched_boundary_witness :
  (∀ d, d ∈ scenario_rows →
        Cell.to_value (field d "TS_MMR_DASH") ≠ get (properties (town "town2")) "TS_MMR")
  ∧ popup_headline (addPopup no_fraction (merge_feature scenario_rows (town "town2")))
    = "အချက်အလက်မရှိပါ"
  ∧ popup_state (addPopup no_fraction (merge_feature scenario_rows (town "town2")))
    = "undefined".
Proof.
  assert (∀ d, d ∈ scenario_rows →
            Cell.to_value (field d "TS_MMR_DASH")
            ≠ get (properties (town "town2")) "TS_MMR") as Hno.
  { intros d Hd. apply list_elem_of_singleton in Hd. subst d.
    vm_compute. discriminate. }
  split; [exact Hno|].
  destruct (popup_of_unmatched_boundary no_fraction scenario_rows (town "town2")
              Hno eq_refl eq_refl)
    as (Hh & _ & _ & _ & _ & Hst & _).
  split; [exact Hh|]. apply Hst. reflexivity.
Defined.

(** X16 on the scenario. *)
Lemma init_draws_every_boundary_witness :
  sheet_values both_answered = Ok (Some scenario_values)
  ∧ boundary_file both_answered = Ok scenario_boundaries
  ∧ (WarDashboard no_date no_numeral no_fraction blank_page both_answered).1 = Ok tt
  ∧ console (WarDashboard no_date no_numeral no_fraction blank_page both_answered).2
    = [].
Proof.
  split; [reflexivity|]. split; [reflexivity|].
  destruct (init_draws_every_boundary no_date no_numeral no_fraction blank_page
              both_answered scenario_values scenario_boundaries eq_refl eq_refl)
    as (Hok & Hlog & _).
  split; [exact Hok|exact Hlog].
Defined.

(** X17 on the sheet that holds its header row only. *)
Lemma unmatched_sheet_renders_NaN_witness :
  features scenario_boundaries ≠ []
  ∧ maxTime_of no_numeral (mergeData (processSheetData [scenario_headers])
                             scenario_boundaries) = 0%float
  ∧ ∃ new_layer,
      currentLayer
        (WarDashboard no_date no_numeral no_fraction blank_page header_only).2
      = Some new_layer
      ∧ length new_layer = 2%nat.
Proof.
  assert (features scenario_boundaries ≠ []) as Hne by discriminate.
  split; [exact Hne|].
  destruct (unmatched_sheet_renders_NaN no_date no_numeral no_fraction blank_page
              header_only [scenario_headers] scenario_boundaries
              eq_refl eq_refl Hne)
    as (_ & _ & Hmax & new_layer & Hcur & _ & Hlen & _).
  { intros ft d _ Hd. simpl in Hd. by apply elem_of_nil in Hd. }
  split; [exact Hmax|].
  exists new_layer. split; [exact Hcur|exact Hlen].
Defined.

